(** * ShareMeal backend: credential subsystem, validation schemas and
      route handlers, as a shallow embedding of [src/backend/*.py].

    Layout of the development:
    - [Py]: exceptions, the result of a call ([Ok] or [Raise]), values and
      documents;
    - [codecs], [hashlib], [base64]: the interpreter's UTF-8 codec, SHA-256
      and Base64, written out so that the pre-hash of a password can be
      evaluated;
    - [models]: the schemas and field validators of [models.py];
    - [Boundary]: the third-party libraries (password hasher, token
      library, push provider, identifiers of the store) as parameters;
    - [auth]: [auth.py], over the password-hashing and token primitives;
    - [mongo]: filter documents and collection operations;
    - [main]: the route handlers of [main.py], in a state-and-exception
      monad over the three collections;
    - [reference]: instances of the parameters on which the handlers can be
      evaluated;
    - the vocabulary of the properties and the example data;
    - the properties, one section per subsystem, and their instances on
      the example data. *)

From Stdlib Require Import ZArith Reals Lra Lia Ascii.
From stdpp Require Import gmap strings list pretty.

Local Open Scope Z_scope.

(** ** Python runtime: exceptions and results *)

Module Py.

(** The exception classes the backend raises, catches, or lets escape.
    [HTTPException] is the structured error of the HTTP layer; every other
    class that leaves a handler is an unhandled server failure. *)
Inductive exn :=
| HTTPException (status_code : Z) (detail : string)
                (headers : list (string * string))
| ValueError (msg : string)
| KeyError (key : string)
| TypeError (msg : string)
| InvalidId (oid : string)
| JWTError (msg : string)
| ValidationError (msg : string)
| FirebaseError (msg : string).

Inductive result (A : Type) :=
| Ok (a : A)
| Raise (e : exn).
Arguments Ok {A} a.
Arguments Raise {A} e.

#[global] Instance exn_eq_dec : EqDecision exn.
Proof. solve_decision. Defined.

#[global] Instance result_ret : MRet result := @Ok.
#[global] Instance result_bind : MBind result :=
  fun A B f m => match m with Ok a => f a | Raise e => Raise e end.

(** [str(e)] of an exception, as the handlers interpolate it. *)
Definition str_exn (e : exn) : string :=
  match e with
  | HTTPException status_code detail _ => pretty status_code +:+ ": " +:+ detail
  | ValueError m | TypeError m | JWTError m
  | ValidationError m | FirebaseError m => m
  | KeyError k => "'" +:+ k +:+ "'"
  | InvalidId s =>
      "'" +:+ s +:+ "' is not a valid ObjectId, it must be a 12-byte input "
      +:+ "or a 24-character hex string"
  end.

Definition is_HTTPException (e : exn) : bool :=
  match e with HTTPException _ _ _ => true | _ => false end.

(** [except ValueError]: the schema library's validation error is a
    subclass of [ValueError]. *)
Definition is_ValueError (e : exn) : bool :=
  match e with ValueError _ | ValidationError _ => true | _ => false end.

Definition is_JWTError (e : exn) : bool :=
  match e with JWTError _ => true | _ => false end.

(** A Python [str] whose characters are inspected: a sequence of Unicode
    code points.  Text that is only stored, compared or sent back is a
    Rocq [string]. *)
Definition char := Z.
Definition str := list char.

(** An ASCII literal as a [str]. *)
Definition lit (s : string) : str :=
  map (fun a => Z.of_N (Ascii.N_of_ascii a)) (String.list_ascii_of_string s).

(** Python [float] with the arithmetic and the [math] functions the
    backend applies to it.  The [math] functions raise [ValueError]
    outside their domain. *)
Class PyFloat := {
  float : Type;
  float_eq_dec :: EqDecision float;
  float_of_int : Z -> float;
  float_of_str : string -> option float;
  float_repr : float -> string;
  float_bool : float -> bool;
  fadd : float -> float -> float;
  fsub : float -> float -> float;
  fmul : float -> float -> float;
  fdiv : float -> float -> float;
  fpow : float -> Z -> float;
  feqb : float -> float -> bool;
  fleb : float -> float -> bool;
  math_radians : float -> float;
  math_sin : float -> result float;
  math_cos : float -> result float;
  math_asin : float -> result float;
  math_sqrt : float -> result float
}.

(** The Python values stored in documents, token claims and the
    current-user bundle. *)
Inductive value `{PyFloat} :=
| VNone
| VStr (s : string)
| VInt (n : Z)
| VFloat (x : float)
| VList (l : list string)
| VObjectId (o : list Z).

#[global] Instance value_eq_dec `{PyFloat} : EqDecision value.
Proof. solve_decision. Defined.

Abbreviation dict := (gmap string value).

Section values.
Context `{PyFloat}.

(** [bool(v)] *)
Definition truthy (v : value) : bool :=
  match v with
  | VNone => false
  | VStr s => negb (String.eqb s "")
  | VInt n => negb (n =? 0)
  | VFloat x => float_bool x
  | VList l => match l with [] => false | _ => true end
  | VObjectId _ => true
  end.

(** [a == b] *)
Definition py_eq (a b : value) : bool :=
  match a, b with
  | VInt n, VFloat x | VFloat x, VInt n => feqb (float_of_int n) x
  | VFloat x, VFloat y => feqb x y
  | _, _ => bool_decide (a = b)
  end.

(** [d.get(k)], [d.get(k, dflt)] and [d[k]] *)
Definition get (d : dict) (k : string) : value := default VNone (d !! k).
Definition get_or (d : dict) (k : string) (dflt : value) : value :=
  default dflt (d !! k).
Definition getitem (d : dict) (k : string) : result value :=
  match d !! k with
  | Some v => Ok v
  | None => Raise (KeyError k)
  end.

(** A document or [None] in a condition: [None] and the empty dict are
    false. *)
Definition some_doc (o : option dict) : option dict :=
  match o with
  | Some d => if decide (d = ∅) then None else Some d
  | None => None
  end.

(** [needle in hay] and [s.lower()] on text *)
Fixpoint contains (needle hay : string) : bool :=
  String.prefix needle hay ||
  match hay with
  | String _ hay' => contains needle hay'
  | EmptyString => false
  end.

Definition lower_ascii (a : ascii) : ascii :=
  let n := N_of_ascii a in
  if ((65 <=? n) && (n <=? 90))%N then ascii_of_N (n + 32) else a.

Fixpoint lower (s : string) : string :=
  match s with
  | String a s' => String (lower_ascii a) (lower s')
  | EmptyString => EmptyString
  end.

(** [s.capitalize()] on ASCII text: first character upper case, the
    rest lower case. *)
Definition upper_ascii (a : ascii) : ascii :=
  let n := N_of_ascii a in
  if ((97 <=? n) && (n <=? 122))%N then ascii_of_N (n - 32) else a.

Definition capitalize (s : string) : string :=
  match s with
  | String a s' => String (upper_ascii a) (lower s')
  | EmptyString => EmptyString
  end.
End values.

End Py.
Export Py.

(** ** [str.encode('utf-8')] *)

Module codecs.

(** The UTF-8 bytes of one code point. *)
Definition utf8_char (c : char) : list Z :=
  if c <? 128 then [c]
  else if c <? 2048 then
    [Z.lor 192 (Z.shiftr c 6); Z.lor 128 (Z.land c 63)]
  else if c <? 65536 then
    [Z.lor 224 (Z.shiftr c 12);
     Z.lor 128 (Z.land (Z.shiftr c 6) 63);
     Z.lor 128 (Z.land c 63)]
  else
    [Z.lor 240 (Z.shiftr c 18);
     Z.lor 128 (Z.land (Z.shiftr c 12) 63);
     Z.lor 128 (Z.land (Z.shiftr c 6) 63);
     Z.lor 128 (Z.land c 63)].

Definition encode_utf8 (s : str) : list Z := flat_map utf8_char s.

End codecs.

(** ** [hashlib.sha256]: FIPS 180-4 on 32-bit words held in [Z] *)

Module hashlib.

Definition mask32 : Z := 4294967295.
Definition w32 (x : Z) : Z := Z.land x mask32.
Definition add32 (x y : Z) : Z := w32 (x + y).
Definition rotr (n x : Z) : Z :=
  w32 (Z.lor (Z.shiftr x n) (Z.shiftl x (32 - n))).
Definition shr (n x : Z) : Z := Z.shiftr x n.
Definition not32 (x : Z) : Z := Z.lxor x mask32.

Definition Ch (x y z : Z) : Z :=
  Z.lxor (Z.land x y) (Z.land (not32 x) z).
Definition Maj (x y z : Z) : Z :=
  Z.lxor (Z.lxor (Z.land x y) (Z.land x z)) (Z.land y z).
Definition Sigma0 (x : Z) : Z :=
  Z.lxor (Z.lxor (rotr 2 x) (rotr 13 x)) (rotr 22 x).
Definition Sigma1 (x : Z) : Z :=
  Z.lxor (Z.lxor (rotr 6 x) (rotr 11 x)) (rotr 25 x).
Definition sigma0 (x : Z) : Z :=
  Z.lxor (Z.lxor (rotr 7 x) (rotr 18 x)) (shr 3 x).
Definition sigma1 (x : Z) : Z :=
  Z.lxor (Z.lxor (rotr 17 x) (rotr 19 x)) (shr 10 x).

(** The round constants are the first 32 bits of the fractional parts of
    the cube roots of the first 64 primes, and the initial chaining value
    those of the square roots of the first 8; both are computed from that
    definition. *)
Definition is_prime (n : nat) : bool :=
  forallb (fun d => negb (n mod d =? 0)%nat) (seq 2 (n - 2)).

Definition primes : list Z :=
  map Z.of_nat (List.filter is_prime (seq 2 310)).

(** The integer cube root, one bit at a time from [bit] down. *)
Fixpoint cube_root_from (bit : nat) (n r : Z) : Z :=
  let r' := r + 2 ^ Z.of_nat bit in
  let r := if r' ^ 3 <=? n then r' else r in
  match bit with
  | O => r
  | S bit' => cube_root_from bit' n r
  end.

Definition frac_cube_root (p : Z) : Z :=
  w32 (cube_root_from 34 (p * 2 ^ 96) 0).

Definition frac_square_root (p : Z) : Z :=
  w32 (Z.sqrt (p * 2 ^ 64)).

Definition K : list Z := Eval vm_compute in map frac_cube_root primes.

(** The eight working variables, also the chaining value. *)
Record state := State {
  sa : Z; sb : Z; sc : Z; sd : Z; se : Z; sf : Z; sg : Z; sh : Z
}.

Definition H0 : state :=
  Eval vm_compute in
    match map frac_square_root (take 8 primes) with
    | [a; b; c; d; e; f; g; h] => State a b c d e f g h
    | _ => State 0 0 0 0 0 0 0 0
    end.

(** Padding: a [1] bit, zeros up to 56 modulo 64, the bit length on
    eight bytes. *)
Definition be_bytes (n : nat) (x : Z) : list Z :=
  map (fun i => Z.land (Z.shiftr x (8 * Z.of_nat i)) 255) (rev (seq 0 n)).

Definition pad (msg : list Z) : list Z :=
  let len := Z.of_nat (length msg) in
  let zeros := Z.to_nat ((55 - len) mod 64) in
  msg ++ [128] ++ replicate zeros 0 ++ be_bytes 8 (8 * len).

Fixpoint be_words (fuel : nat) (bs : list Z) : list Z :=
  match fuel, bs with
  | S fuel', b0 :: b1 :: b2 :: b3 :: rest =>
      (Z.shiftl b0 24 + Z.shiftl b1 16 + Z.shiftl b2 8 + b3)
        :: be_words fuel' rest
  | _, _ => []
  end.

(** The message schedule, most recent word first: [ws] holds
    [W(t-1), W(t-2), ...]. *)
Fixpoint schedule (n : nat) (ws : list Z) : list Z :=
  match n with
  | O => ws
  | S n' =>
      let w := add32 (add32 (sigma1 (nth 1 ws 0)) (nth 6 ws 0))
                     (add32 (sigma0 (nth 14 ws 0)) (nth 15 ws 0)) in
      schedule n' (w :: ws)
  end.

Definition round (s : state) (kw : Z * Z) : state :=
  let t1 := add32 (add32 (add32 (sh s) (Sigma1 (se s)))
                         (add32 (Ch (se s) (sf s) (sg s)) kw.1)) kw.2 in
  let t2 := add32 (Sigma0 (sa s)) (Maj (sa s) (sb s) (sc s)) in
  State (add32 t1 t2) (sa s) (sb s) (sc s)
        (add32 (sd s) t1) (se s) (sf s) (sg s).

Definition compress (h : state) (block : list Z) : state :=
  let w := rev (schedule 48 (rev (be_words 16 block))) in
  let s := fold_left round (zip K w) h in
  State (add32 (sa h) (sa s)) (add32 (sb h) (sb s))
        (add32 (sc h) (sc s)) (add32 (sd h) (sd s))
        (add32 (se h) (se s)) (add32 (sf h) (sf s))
        (add32 (sg h) (sg s)) (add32 (sh h) (sh s)).

Fixpoint blocks (fuel : nat) (h : state) (bs : list Z) : state :=
  match fuel, bs with
  | S fuel', _ :: _ => blocks fuel' (compress h (take 64 bs)) (drop 64 bs)
  | _, _ => h
  end.

Definition digest_of (s : state) : list Z :=
  flat_map (be_bytes 4)
    [sa s; sb s; sc s; sd s; se s; sf s; sg s; sh s].

(** [hashlib.sha256(data).digest()] *)
Definition sha256 (data : list Z) : list Z :=
  let p := pad data in
  digest_of (blocks (length p) H0 p).

Definition hex_digit (d : Z) : Ascii.ascii :=
  Ascii.ascii_of_N (Z.to_N (if d <? 10 then 48 + d else 87 + d)).

Definition hexlify (bs : list Z) : string :=
  String.string_of_list_ascii
    (flat_map (fun b => [hex_digit (Z.shiftr b 4); hex_digit (Z.land b 15)])
              bs).

End hashlib.

(** ** [base64.b64encode] *)

Module base64.

Definition alphabet : list Ascii.ascii :=
  String.list_ascii_of_string
    "ABCDEFGHIJKLMNOPQRSTUVWXYZabcdefghijklmnopqrstuvwxyz0123456789+/".

Definition sextet (i : Z) : Ascii.ascii :=
  nth (Z.to_nat (Z.land i 63)) alphabet "="%char.

Fixpoint encode_list (bs : list Z) : list Ascii.ascii :=
  match bs with
  | [] => []
  | [a] =>
      [sextet (Z.shiftr a 2); sextet (Z.shiftl (Z.land a 3) 4);
       "="%char; "="%char]
  | [a; b] =>
      [sextet (Z.shiftr a 2);
       sextet (Z.lor (Z.shiftl (Z.land a 3) 4) (Z.shiftr b 4));
       sextet (Z.shiftl (Z.land b 15) 2);
       "="%char]
  | a :: b :: c :: rest =>
      sextet (Z.shiftr a 2)
      :: sextet (Z.lor (Z.shiftl (Z.land a 3) 4) (Z.shiftr b 4))
      :: sextet (Z.lor (Z.shiftl (Z.land b 15) 2) (Z.shiftr c 6))
      :: sextet c
      :: encode_list rest
  end.

(** [base64.b64encode(bs).decode('utf-8')] *)
Definition b64encode (bs : list Z) : string :=
  String.string_of_list_ascii (encode_list bs).

End base64.

(** ** [models.py]: request schemas and their field validators *)

(** The character classes of the interpreter's Unicode database, which the
    validators consult through [str.isalpha], [str.isdigit] and
    [str.strip]. *)
Class Unicode := {
  isalpha : char -> bool;
  isdigit : char -> bool;
  isspace : char -> bool
}.

Module models.
Section validators.
Context `{Unicode}.

Fixpoint lstrip (v : str) : str :=
  match v with
  | c :: v' => if isspace c then lstrip v' else v
  | [] => []
  end.

(** [v.strip()] *)
Definition strip (v : str) : str := rev (lstrip (rev (lstrip v))).

(** [not v or len(v.strip()) == 0] *)
Definition blank (v : str) : bool :=
  match v with
  | [] => true
  | _ => (length (strip v) =? 0)%nat
  end.

End validators.

Module RegisterRequest.
Record t := Build { email : string; password : str; name : string }.

Definition validate_password `{Unicode} (v : str) : result str :=
  if blank v then
    Raise (ValueError "Password cannot be empty")
  else if (length v <? 8)%nat then
    Raise (ValueError "Password must be at least 8 characters long")
  else if (128 <? length v)%nat then
    Raise (ValueError "Password cannot be longer than 128 characters")
  else
    let has_letter := existsb isalpha v in
    let has_digit := existsb isdigit v in
    if negb has_letter then
      Raise (ValueError "Password must contain at least one letter")
    else if negb has_digit then
      Raise (ValueError "Password must contain at least one number")
    else Ok v.
End RegisterRequest.

Module LoginRequest.
Record t := Build { email : string; password : str }.

Definition validate_password_length `{Unicode} (v : str) : result str :=
  if blank v then Raise (ValueError "Password cannot be empty")
  else Ok v.
End LoginRequest.

Module PasswordChangeRequest.
Record t := Build { old_password : str; new_password : str }.

Definition validate_old_password `{Unicode} (v : str) : result str :=
  if blank v then Raise (ValueError "Old password cannot be empty")
  else Ok v.

Definition validate_new_password `{Unicode} (v : str) : result str :=
  if blank v then
    Raise (ValueError "New password cannot be empty")
  else if (length v <? 8)%nat then
    Raise (ValueError "New password must be at least 8 characters long")
  else if (128 <? length v)%nat then
    Raise (ValueError "New password cannot be longer than 128 characters")
  else
    let has_letter := existsb isalpha v in
    let has_digit := existsb isdigit v in
    if negb has_letter then
      Raise (ValueError "New password must contain at least one letter")
    else if negb has_digit then
      Raise (ValueError "New password must contain at least one number")
    else Ok v.
End PasswordChangeRequest.

Module DeleteAccountRequest.
Record t := Build { password : str }.

Definition validate_password `{Unicode} (v : str) : result str :=
  if blank v then Raise (ValueError "Password cannot be empty")
  else Ok v.
End DeleteAccountRequest.

(** The schema constructors applied to the keys of a dict: a missing
    key or a value of the wrong type is a validation error; keys the schema
    does not name are ignored. *)
Section fields.
Context `{PyFloat}.

Definition field_str (d : dict) (k : string) : result string :=
  match d !! k with
  | Some (VStr s) => Ok s
  | Some _ =>
      Raise (ValidationError (k +:+ ": Input should be a valid string"))
  | None => Raise (ValidationError (k +:+ ": Field required"))
  end.

Definition field_opt_str (d : dict) (k : string)
  : result (option string) :=
  match d !! k with
  | Some (VStr s) => Ok (Some s)
  | Some VNone => Ok None
  | Some _ =>
      Raise (ValidationError (k +:+ ": Input should be a valid string"))
  | None => Raise (ValidationError (k +:+ ": Field required"))
  end.

Definition field_float (d : dict) (k : string) : result float :=
  match d !! k with
  | Some (VFloat x) => Ok x
  | Some (VInt n) => Ok (float_of_int n)
  | Some (VStr s) =>
      match float_of_str s with
      | Some x => Ok x
      | None =>
          Raise (ValidationError
                   (k +:+ ": Input should be a valid number"))
      end
  | Some _ =>
      Raise (ValidationError (k +:+ ": Input should be a valid number"))
  | None => Raise (ValidationError (k +:+ ": Field required"))
  end.

Definition field_list (d : dict) (k : string) : result (list string) :=
  match d !! k with
  | Some (VList l) => Ok l
  | Some _ =>
      Raise (ValidationError (k +:+ ": Input should be a valid list"))
  | None => Raise (ValidationError (k +:+ ": Field required"))
  end.
End fields.

Module FoodItemUpdate.
Record t `{PyFloat} := Build {
  title : option string;
  pickup_lat : option float;
  pickup_lng : option float;
  pickup_address : option string;
  quantity : option string;
  available_until : option string;
  items : option (list string)
}.
End FoodItemUpdate.

Module FoodItemResponse.
Record t `{PyFloat} := Build {
  id : string;
  title : string;
  pickup_lat : float;
  pickup_lng : float;
  pickup_address : string;
  quantity : string;
  available_until : string;
  items : list string;
  donor_uid : string;
  created_at : string
}.

(** [FoodItemResponse] built from the keys of [d] *)
Definition of_dict `{PyFloat} (d : dict) : result t :=
  id ← field_str d "id";
  title ← field_str d "title";
  pickup_lat ← field_float d "pickup_lat";
  pickup_lng ← field_float d "pickup_lng";
  pickup_address ← field_str d "pickup_address";
  quantity ← field_str d "quantity";
  available_until ← field_str d "available_until";
  items ← field_list d "items";
  donor_uid ← field_str d "donor_uid";
  created_at ← field_str d "created_at";
  mret (Build _ id title pickup_lat pickup_lng pickup_address quantity
              available_until items donor_uid created_at).
End FoodItemResponse.

Module RequestCreate.
Record t := Build { notes : option string }.
End RequestCreate.

Module RequestUpdate.
Record t := Build { status : string }.
End RequestUpdate.

Module RequestResponse.
Record t := Build {
  id : string;
  food_id : string;
  requester_uid : string;
  donor_uid : string;
  status : string;
  notes : option string;
  created_at : string
}.

(** [RequestResponse] built from the keys of [d] *)
Definition of_dict `{PyFloat} (d : dict) : result t :=
  id ← field_str d "id";
  food_id ← field_str d "food_id";
  requester_uid ← field_str d "requester_uid";
  donor_uid ← field_str d "donor_uid";
  status ← field_str d "status";
  notes ← field_opt_str d "notes";
  created_at ← field_str d "created_at";
  mret (Build id food_id requester_uid donor_uid status notes created_at).
End RequestResponse.

Module FCMTokenUpdate.
Record t := Build { fcm_token : string }.
End FCMTokenUpdate.

End models.

(** ** Third-party boundary systems and process configuration

    The libraries the backend calls but does not implement, taken as
    parameters: the environment, the adaptive password hasher
    ([passlib]'s bcrypt context), the token library ([jose.jwt]), the
    push provider ([firebase_admin.messaging]), the store's regular
    expressions and its identifiers ([bson.ObjectId]). *)
Class Boundary `{PyFloat} := {
  getenv : string -> option string;
  (** [pwd_context.hash(secret)] under the salt drawn for this call, and
      [pwd_context.verify(secret, hash)] *)
  pwd_context_hash : string -> string -> result string;
  pwd_context_verify : string -> value -> result bool;
  (** the raw digest the hasher computes for a secret under a salt *)
  bcrypt_digest : string -> string -> string;
  (** [jwt.encode(claims, key, algorithm)] and
      [jwt.decode(token, key, algorithms)] at a given clock reading,
      in seconds since the epoch *)
  token : Type;
  jwt_encode : dict -> string -> string -> token;
  jwt_decode : token -> string -> list string -> Z -> result dict;
  (** whether the signature segment of a token is the one the key and the
      algorithm produce for its header and payload *)
  jws_verify : token -> string -> string -> bool;
  (** [messaging.send(Message(Notification(title, body), token))] *)
  messaging_send : string -> string -> string -> result string;
  (** [{"$regex": pattern, "$options": options}] against one string *)
  regex_search : string -> string -> string -> bool;
  (** [ObjectId(s)] on text, [str(oid)], and the identifier generated for
      the n-th insertion *)
  ObjectId_parse : string -> option (list Z);
  ObjectId_str : list Z -> string;
  ObjectId_generate : nat -> list Z;
  (** [repr(s)] of a [str], as it stands inside the [str] of a list *)
  repr_str : string -> string
}.

(** ** [auth.py] *)

Module auth.
Section auth.
Context `{Boundary}.

Definition SECRET_KEY : string :=
  default "your-secret-key-change-this-in-production" (getenv "SECRET_KEY").
Definition ALGORITHM : string := "HS256".
Definition ACCESS_TOKEN_EXPIRE_MINUTES : Z := 60 * 24 * 7.

Definition _prehash_password (password : str) : string :=
  let hash_bytes := hashlib.sha256 (codecs.encode_utf8 password) in
  base64.b64encode hash_bytes.

Definition verify_password (plain_password : str) (hashed_password : value)
  : result bool :=
  let prehashed := _prehash_password plain_password in
  pwd_context_verify prehashed hashed_password.

(** [salt] is the salt the hasher draws for this call. *)
Definition get_password_hash (salt : string) (password : str)
  : result string :=
  let prehashed := _prehash_password password in
  match pwd_context_hash salt prehashed with
  | Ok h => Ok h
  | Raise e =>
      if is_ValueError e then
        let error_msg := str_exn e in
        if contains "72 bytes" (lower error_msg) || contains "72" error_msg
        then Raise (ValueError
          ("Password is too long. Maximum 72 bytes allowed. " +:+
           "Some characters (like emojis or special Unicode) use " +:+
           "multiple bytes. " +:+
           "Please use a shorter password with standard characters."))
        else Raise e
      else Raise e
  end.

(** [utcnow] is the clock reading in seconds; a [timedelta] is a number
    of seconds, and is false in a condition when it is zero. *)
Definition create_access_token (data : dict) (expires_delta : option Z)
    (utcnow : Z) : token :=
  let to_encode := data in
  let expire :=
    match expires_delta with
    | Some delta =>
        if delta =? 0 then utcnow + 60 * ACCESS_TOKEN_EXPIRE_MINUTES
        else utcnow + delta
    | None => utcnow + 60 * ACCESS_TOKEN_EXPIRE_MINUTES
    end in
  let to_encode := <["exp" := VInt expire]> to_encode in
  jwt_encode to_encode SECRET_KEY ALGORITHM.

Definition credentials_exception : exn :=
  HTTPException 401 "Invalid authentication credentials"
                [("WWW-Authenticate", "Bearer")].

Definition verify_token (tok : token) (utcnow : Z) : result dict :=
  match jwt_decode tok SECRET_KEY [ALGORITHM] utcnow with
  | Ok payload =>
      let user_id := get payload "sub" in
      match user_id with
      | VNone => Raise credentials_exception
      | _ =>
          Ok (<["uid" := user_id]>
              (<["email" := get payload "email"]>
               (<["name" := get payload "name"]> ∅)))
      end
  | Raise e =>
      if is_JWTError e then Raise credentials_exception else Raise e
  end.

Definition get_current_user (credentials : token) (utcnow : Z)
  : result dict :=
  verify_token credentials utcnow.

End auth.
End auth.

(** ** The document store: filters and collection operations *)

Module mongo.
Section mongo.
Context `{Boundary}.

(** One field of a filter document: [{k: v}], [{k: {"$gte": v}}] and
    [{k: {"$regex": pattern, "$options": options}}]. *)
Inductive cond :=
| QEq (v : value)
| QGte (v : value)
| QRegex (pattern options : string).

(** A filter document; every field has to match. *)
Definition query := list (string * cond).

Definition matches_cond (c : cond) (field : option value) : bool :=
  match c with
  | QEq v =>
      match field with
      | Some (VList l) =>
          match v with
          | VStr s => bool_decide (s ∈ l)
          | _ => py_eq (VList l) v
          end
      | Some x => py_eq x v
      | None => bool_decide (v = VNone)
      end
  | QGte v =>
      match field, v with
      | Some (VStr t), VStr s => String.leb s t
      | Some (VInt m), VInt n => n <=? m
      | Some (VFloat y), VFloat x => fleb x y
      | Some (VInt m), VFloat x => fleb x (float_of_int m)
      | Some (VFloat y), VInt n => fleb (float_of_int n) y
      | _, _ => false
      end
  | QRegex pattern options =>
      match field with
      | Some (VStr t) => regex_search pattern options t
      | Some (VList l) => existsb (regex_search pattern options) l
      | _ => false
      end
  end.

Definition matches (q : query) (d : dict) : bool :=
  forallb (fun kc => matches_cond kc.2 (d !! kc.1)) q.

(** [find_one]: the first matching document in natural order. *)
Definition find_one (q : query) (coll : list dict) : option dict :=
  find (matches q) coll.

(** [find(q).to_list(length=n)] *)
Definition find_to_list (q : query) (n : nat) (coll : list dict)
  : list dict :=
  take n (filter (fun d => matches q d = true) coll).

(** [insert_one]: the driver adds the generated [_id]. *)
Definition insert_one (d : dict) (oid : list Z) (coll : list dict)
  : list dict :=
  coll ++ [<["_id" := VObjectId oid]> d].

(** [update_one(q, {"$set": fields})]: the first match gets the fields. *)
Fixpoint update_one (q : query) (fields : dict) (coll : list dict)
  : list dict :=
  match coll with
  | d :: rest =>
      if matches q d then (fields ∪ d) :: rest
      else d :: update_one q fields rest
  | [] => []
  end.

Fixpoint delete_one (q : query) (coll : list dict) : list dict :=
  match coll with
  | d :: rest => if matches q d then rest else d :: delete_one q rest
  | [] => []
  end.

(** [delete_many]: what is left, and the result's [deleted_count]. *)
Definition delete_many (q : query) (coll : list dict) : list dict * nat :=
  (filter (fun d => matches q d = false) coll,
   length (filter (fun d => matches q d = true) coll)).

End mongo.
End mongo.

(** ** [main.py]: the route handlers *)

Module main.
Section main.
Context `{Boundary}.

Inductive collection := Users | FoodItems | Requests.

(** What a handler does to the outside, in the order it does it: calls on
    a collection and messages handed to the push provider. *)
Inductive event :=
| DbCall (c : collection) (method : string) (filter : mongo.query)
| FcmSend (fcm_token title body : string).

(** The three collections of the [sharemeal] database, the number of
    identifiers generated so far, and the events so far, oldest first. *)
Record world := World {
  users : list dict;
  food_items : list dict;
  requests : list dict;
  generated : nat;
  trace : list event
}.

Definition coll (c : collection) (w : world) : list dict :=
  match c with
  | Users => users w
  | FoodItems => food_items w
  | Requests => requests w
  end.

Definition set_coll (c : collection) (l : list dict) (w : world) : world :=
  match c with
  | Users => World l (food_items w) (requests w) (generated w) (trace w)
  | FoodItems => World (users w) l (requests w) (generated w) (trace w)
  | Requests => World (users w) (food_items w) l (generated w) (trace w)
  end.

Definition record (ev : event) (w : world) : world :=
  World (users w) (food_items w) (requests w) (generated w)
        (trace w ++ [ev]).

(** A handler body: it reads and writes the world and returns or
    raises. *)
Definition M (A : Type) : Type := world -> world * result A.

#[global] Instance M_ret : MRet M := fun A a w => (w, Ok a).
#[global] Instance M_bind : MBind M := fun A B f m w =>
  match m w with
  | (w', Ok a) => f a w'
  | (w', Raise e) => (w', Raise e)
  end.

Definition raise {A} (e : exn) : M A := fun w => (w, Raise e).
Definition lift {A} (r : result A) : M A := fun w => (w, r).

(** [try: m except Exception as e: handler(e)] *)
Definition try_except {A} (m : M A) (handler : exn -> M A) : M A :=
  fun w =>
    match m w with
    | (w', Raise e) => handler e w'
    | r => r
    end.

(** *** Calls on [db.<collection>] *)

Definition find_one (c : collection) (q : mongo.query) : M (option dict) :=
  fun w => (record (DbCall c "find_one" q) w,
            Ok (mongo.find_one q (coll c w))).

Definition find_to_list (c : collection) (q : mongo.query) (n : nat)
  : M (list dict) :=
  fun w => (record (DbCall c "find" q) w,
            Ok (mongo.find_to_list q n (coll c w))).

(** Returns [result.inserted_id]. *)
Definition insert_one (c : collection) (d : dict) : M (list Z) :=
  fun w =>
    let oid := ObjectId_generate (generated w) in
    let w1 := set_coll c (mongo.insert_one d oid (coll c w)) w in
    (record (DbCall c "insert_one" [])
       (World (users w1) (food_items w1) (requests w1)
              (S (generated w1)) (trace w1)),
     Ok oid).

Definition update_one (c : collection) (q : mongo.query) (fields : dict)
  : M unit :=
  fun w => (record (DbCall c "update_one" q)
              (set_coll c (mongo.update_one q fields (coll c w)) w),
            Ok tt).

Definition delete_one (c : collection) (q : mongo.query) : M unit :=
  fun w => (record (DbCall c "delete_one" q)
              (set_coll c (mongo.delete_one q (coll c w)) w),
            Ok tt).

(** Returns [result.deleted_count]. *)
Definition delete_many (c : collection) (q : mongo.query) : M nat :=
  fun w =>
    let r := mongo.delete_many q (coll c w) in
    (record (DbCall c "delete_many" q) (set_coll c r.1 w), Ok r.2).

(** *** Identifiers and text *)

(** [ObjectId(v)]: text is parsed, an identifier is kept, [None] asks for
    a fresh identifier, anything else is a type error. *)
Definition ObjectId (v : value) : M (list Z) :=
  match v with
  | VStr s =>
      match ObjectId_parse s with
      | Some oid => mret oid
      | None => raise (InvalidId s)
      end
  | VObjectId oid => mret oid
  | VNone =>
      fun w => (World (users w) (food_items w) (requests w)
                      (S (generated w)) (trace w),
                Ok (ObjectId_generate (generated w)))
  | _ => raise (TypeError
                  "id must be an instance of (bytes, str, ObjectId)")
  end.

(** [str(v)], also what an f-string writes for [v]. *)
Definition py_str (v : value) : string :=
  match v with
  | VNone => "None"
  | VStr s => s
  | VInt n => pretty n
  | VFloat x => float_repr x
  | VList l => "[" +:+ String.concat ", " (map repr_str l) +:+ "]"
  | VObjectId oid => ObjectId_str oid
  end.

(** *** [fcm.send_notification] *)

(** The token is sliced for the log line and then handed to the
    provider; a failure of either is logged and raised again. *)
Definition send_notification (fcm_token : value) (title body : string)
  : M string :=
  match fcm_token with
  | VStr t =>
      fun w => (record (FcmSend t title body) w, messaging_send t title body)
  | VList _ => raise (ValueError "Message.token must be a string.")
  | _ => raise (TypeError "object is not subscriptable")
  end.

(** *** POST /auth/login *)

Record AuthResponse := {
  access_token : token;
  token_type : string;
  user : dict;
  message : string
}.

(** [utcnow] and [now] are the clock when the request is served: seconds
    since the epoch, and the ISO-8601 text of the same instant. *)
Definition login (login_request : models.LoginRequest.t)
    (utcnow : Z) (now : string) : M AuthResponse :=
  try_except
    (user ← find_one Users
       [("email", mongo.QEq (VStr (models.LoginRequest.email login_request)))];
     match some_doc user with
     | None => raise (HTTPException 401 "Invalid email or password" [])
     | Some user =>
         ok ← lift (auth.verify_password
                      (models.LoginRequest.password login_request)
                      (get_or user "hashed_password" (VStr "")));
         if negb ok then
           raise (HTTPException 401 "Invalid email or password" [])
         else
           _id ← lift (getitem user "_id");
           let user_id := py_str _id in
           let access_token :=
             auth.create_access_token
               (<["sub" := VStr user_id]>
                (<["email" := get user "email"]>
                 (<["name" := get user "name"]> ∅)))
               None utcnow in
           _ ← update_one Users [("_id", mongo.QEq _id)]
                 (<["updated_at" := VStr now]> ∅);
           let user_response : dict :=
             <["id" := VStr user_id]>
             (<["uid" := VStr user_id]>
              (<["email" := get user "email"]>
               (<["name" := get user "name"]>
                (<["picture" := get user "picture"]>
                 (<["created_at" := get user "created_at"]>
                  (<["updated_at" := get user "updated_at"]> ∅)))))) in
           mret {| access_token := access_token;
                   token_type := "bearer";
                   user := user_response;
                   message := "Login successful" |}
     end)
    (fun e =>
       if is_HTTPException e then raise e
       else raise (HTTPException 500 ("Login failed: " +:+ str_exn e) [])).

(** *** GET /food *)

(** A stored coordinate as the operand of a float subtraction. *)
Definition to_float (v : value) : result float :=
  match v with
  | VFloat x => Ok x
  | VInt n => Ok (float_of_int n)
  | _ => Raise (TypeError "unsupported operand type(s) for -")
  end.

(** The distance computed in the loop body, lines 289 to 294. *)
Definition haversine (lat lng item_lat item_lng : float) : result float :=
  let R := float_of_int 6371 in
  let dlat := math_radians (fsub item_lat lat) in
  let dlng := math_radians (fsub item_lng lng) in
  sin_dlat ← math_sin (fdiv dlat (float_of_int 2));
  cos_lat ← math_cos (math_radians lat);
  cos_item ← math_cos (math_radians item_lat);
  sin_dlng ← math_sin (fdiv dlng (float_of_int 2));
  let a := fadd (fpow sin_dlat 2)
                (fmul (fmul cos_lat cos_item) (fpow sin_dlng 2)) in
  root ← math_sqrt a;
  angle ← math_asin root;
  let c := fmul (float_of_int 2) angle in
  let distance := fmul R c in
  mret distance.

Fixpoint radius_loop (lat lng radius_km : float) (food_items : list dict)
    (filtered_items : list dict) : result (list dict) :=
  match food_items with
  | [] => Ok filtered_items
  | food_item :: rest =>
      let item_lat := get food_item "pickup_lat" in
      let item_lng := get food_item "pickup_lng" in
      match item_lat, item_lng with
      | VNone, _ | _, VNone =>
          radius_loop lat lng radius_km rest filtered_items
      | _, _ =>
          x ← to_float item_lat;
          y ← to_float item_lng;
          distance ← haversine lat lng x y;
          if fleb distance radius_km then
            radius_loop lat lng radius_km rest
                        (filtered_items ++ [food_item])
          else radius_loop lat lng radius_km rest filtered_items
      end
  end.

(** The radius stage: applied only when all three parameters are given. *)
Definition radius_filter (lat lng radius_km : option float)
    (food_items : list dict) : result (list dict) :=
  match lat, lng, radius_km with
  | Some lat, Some lng, Some radius_km =>
      radius_loop lat lng radius_km food_items []
  | _, _, _ => Ok food_items
  end.

(** [d["id"] = str(d["_id"]); del d["_id"]] *)
Definition with_id (d : dict) : result dict :=
  _id ← getitem d "_id";
  mret (delete "_id" (<["id" := VStr (py_str _id)]> d)).

Definition given (s : option string) : option string :=
  match s with
  | Some t => if String.eqb t "" then None else Some t
  | None => None
  end.

Definition get_food_items (title location : option string)
    (lat lng radius_km : option float) (item : option string)
    (current_user : dict) (now : string)
  : M (list models.FoodItemResponse.t) :=
  let query : mongo.query := [("available_until", mongo.QGte (VStr now))] in
  let query :=
    match given title with
    | Some title => query ++ [("title", mongo.QRegex title "i")]
    | None => query
    end in
  let query :=
    match given location with
    | Some location =>
        query ++ [("pickup_address", mongo.QRegex location "i")]
    | None => query
    end in
  let query :=
    match given item with
    | Some item => query ++ [("items", mongo.QRegex item "i")]
    | None => query
    end in
  food_items ← find_to_list FoodItems query 1000;
  food_items ← lift (radius_filter lat lng radius_km food_items);
  lift (mapM (fun item =>
                item ← with_id item;
                models.FoodItemResponse.of_dict item)
             food_items).

(** *** PATCH /food/{food_id} *)

Definition set_if {A} (k : string) (field : option A) (inj : A -> value)
    (update_data : dict) : dict :=
  match field with
  | Some x => <[k := inj x]> update_data
  | None => update_data
  end.

(** The update dict built from the fields of the body that are not
    [None], lines 386 to 400. *)
Definition build_update_data (food_update : models.FoodItemUpdate.t)
  : dict :=
  let update_data : dict := ∅ in
  let update_data :=
    set_if "title" (models.FoodItemUpdate.title food_update)
           VStr update_data in
  let update_data :=
    set_if "pickup_lat" (models.FoodItemUpdate.pickup_lat food_update)
           VFloat update_data in
  let update_data :=
    set_if "pickup_lng" (models.FoodItemUpdate.pickup_lng food_update)
           VFloat update_data in
  let update_data :=
    set_if "pickup_address"
           (models.FoodItemUpdate.pickup_address food_update)
           VStr update_data in
  let update_data :=
    set_if "quantity" (models.FoodItemUpdate.quantity food_update)
           VStr update_data in
  let update_data :=
    set_if "available_until"
           (models.FoodItemUpdate.available_until food_update)
           VStr update_data in
  let update_data :=
    set_if "items" (models.FoodItemUpdate.items food_update)
           VList update_data in
  update_data.

Definition update_food_item (food_id : string)
    (food_update : models.FoodItemUpdate.t) (current_user : dict)
    (now : string) : M models.FoodItemResponse.t :=
  oid ← ObjectId (VStr food_id);
  food ← find_one FoodItems [("_id", mongo.QEq (VObjectId oid))];
  match some_doc food with
  | None => raise (HTTPException 404 "Food item not found" [])
  | Some food =>
      donor_uid ← lift (getitem food "donor_uid");
      uid ← lift (getitem current_user "uid");
      if negb (py_eq donor_uid uid) then
        raise (HTTPException 403 "Only owner can update food item" [])
      else
        let update_data := build_update_data food_update in
        if decide (update_data = ∅) then
          raise (HTTPException 400 "No fields to update" [])
        else
          let update_data := <["updated_at" := VStr now]> update_data in
          oid ← ObjectId (VStr food_id);
          _ ← update_one FoodItems [("_id", mongo.QEq (VObjectId oid))]
                update_data;
          oid ← ObjectId (VStr food_id);
          updated_food ←
            find_one FoodItems [("_id", mongo.QEq (VObjectId oid))];
          match updated_food with
          | None =>
              raise (TypeError
                       "'NoneType' object does not support item assignment")
          | Some updated_food =>
              updated_food ← lift (with_id updated_food);
              lift (models.FoodItemResponse.of_dict updated_food)
          end
  end.

(** *** DELETE /food/{food_id} *)

Definition message_response (text : string) : dict :=
  <["message" := VStr text]> ∅.

Definition delete_food_item (food_id : string) (current_user : dict)
  : M dict :=
  oid ← ObjectId (VStr food_id);
  food ← find_one FoodItems [("_id", mongo.QEq (VObjectId oid))];
  match some_doc food with
  | None => raise (HTTPException 404 "Food item not found" [])
  | Some food =>
      donor_uid ← lift (getitem food "donor_uid");
      uid ← lift (getitem current_user "uid");
      if negb (py_eq donor_uid uid) then
        raise (HTTPException 403 "Only owner can delete food item" [])
      else
        oid ← ObjectId (VStr food_id);
        _ ← delete_one FoodItems [("_id", mongo.QEq (VObjectId oid))];
        _ ← delete_many Requests [("food_id", mongo.QEq (VStr food_id))];
        mret (message_response "Food item deleted successfully")
  end.

(** *** POST /food/{food_id}/request *)

Definition create_request (food_id : string)
    (request_data : models.RequestCreate.t) (current_user : dict)
    (now : string) : M models.RequestResponse.t :=
  oid ← ObjectId (VStr food_id);
  food ← find_one FoodItems [("_id", mongo.QEq (VObjectId oid))];
  match some_doc food with
  | None => raise (HTTPException 404 "Food item not found" [])
  | Some food =>
      donor_uid ← lift (getitem food "donor_uid");
      uid ← lift (getitem current_user "uid");
      if py_eq donor_uid uid then
        raise (HTTPException 400 "Cannot request your own food" [])
      else
        requester_uid ← lift (getitem current_user "uid");
        donor_uid ← lift (getitem food "donor_uid");
        let request_doc : dict :=
          <["food_id" := VStr food_id]>
          (<["requester_uid" := requester_uid]>
           (<["donor_uid" := donor_uid]>
            (<["status" := VStr "pending"]>
             (<["notes" :=
                  match models.RequestCreate.notes request_data with
                  | Some n => VStr n
                  | None => VNone
                  end]>
              (<["created_at" := VStr now]> ∅))))) in
        inserted_id ← insert_one Requests request_doc;
        let request_doc := <["_id" := VObjectId inserted_id]> request_doc in
        let response_data :=
          delete "_id" (<["id" := VStr (py_str (VObjectId inserted_id))]>
                        request_doc) in
        donor_uid ← lift (getitem food "donor_uid");
        donor_oid ← ObjectId donor_uid;
        donor ← find_one Users [("_id", mongo.QEq (VObjectId donor_oid))];
        _ ← match some_doc donor with
            | Some donor =>
                if truthy (get donor "fcm_token") then
                  fcm_token ← lift (getitem donor "fcm_token");
                  title ← lift (getitem food "title");
                  _ ← send_notification fcm_token "New Food Request"
                        (py_str (get_or current_user "name" (VStr "Someone"))
                         +:+ " requested your " +:+ py_str title);
                  mret tt
                else mret tt
            | None => mret tt
            end;
        lift (models.RequestResponse.of_dict response_data)
  end.

(** *** PATCH /requests/{request_id} *)

Definition update_request (request_id : string)
    (update_data : models.RequestUpdate.t) (current_user : dict)
    (now : string) : M models.RequestResponse.t :=
  let status := models.RequestUpdate.status update_data in
  oid ← ObjectId (VStr request_id);
  request ← find_one Requests [("_id", mongo.QEq (VObjectId oid))];
  match some_doc request with
  | None => raise (HTTPException 404 "Request not found" [])
  | Some request =>
      donor_uid ← lift (getitem request "donor_uid");
      uid ← lift (getitem current_user "uid");
      if negb (py_eq donor_uid uid) then
        raise (HTTPException 403 "Only donor can update request" [])
      else if negb (bool_decide
                      (status ∈ ["accepted"; "rejected"; "pending"])) then
        raise (HTTPException 400 "Invalid status" [])
      else
        oid ← ObjectId (VStr request_id);
        _ ← update_one Requests [("_id", mongo.QEq (VObjectId oid))]
              (<["status" := VStr status]>
               (<["updated_at" := VStr now]> ∅));
        oid ← ObjectId (VStr request_id);
        updated_request ←
          find_one Requests [("_id", mongo.QEq (VObjectId oid))];
        requester_uid ← lift (getitem request "requester_uid");
        requester_oid ← ObjectId requester_uid;
        requester ←
          find_one Users [("_id", mongo.QEq (VObjectId requester_oid))];
        _ ← match some_doc requester with
            | Some requester =>
                if truthy (get requester "fcm_token") then
                  food_id ← lift (getitem request "food_id");
                  food_oid ← ObjectId food_id;
                  food ← find_one FoodItems
                           [("_id", mongo.QEq (VObjectId food_oid))];
                  food_title ←
                    match some_doc food with
                    | Some food =>
                        title ← lift (getitem food "title");
                        mret (py_str title)
                    | None => mret "food item"
                    end;
                  let status_msg :=
                    if String.eqb status "accepted" then "accepted"
                    else "rejected" in
                  fcm_token ← lift (getitem requester "fcm_token");
                  _ ← send_notification fcm_token
                        ("Request " +:+ capitalize status_msg)
                        ("Your request for " +:+ food_title +:+
                         " has been " +:+ status_msg);
                  mret tt
                else mret tt
            | None => mret tt
            end;
        match updated_request with
        | None =>
            raise (TypeError
                     "'NoneType' object does not support item assignment")
        | Some updated_request =>
            updated_request ← lift (with_id updated_request);
            lift (models.RequestResponse.of_dict updated_request)
        end
  end.

(** *** DELETE /requests/{request_id} *)

Definition delete_request (request_id : string) (current_user : dict)
  : M dict :=
  oid ← ObjectId (VStr request_id);
  request ← find_one Requests [("_id", mongo.QEq (VObjectId oid))];
  match some_doc request with
  | None => raise (HTTPException 404 "Request not found" [])
  | Some request =>
      requester_uid ← lift (getitem request "requester_uid");
      uid ← lift (getitem current_user "uid");
      not_requester ← mret (negb (py_eq requester_uid uid));
      not_donor ←
        (if not_requester then
           donor_uid ← lift (getitem request "donor_uid");
           uid ← lift (getitem current_user "uid");
           mret (negb (py_eq donor_uid uid))
         else mret false);
      if not_requester && not_donor then
        raise (HTTPException 403
                 "Only requester or donor can delete request" [])
      else
        oid ← ObjectId (VStr request_id);
        _ ← delete_one Requests [("_id", mongo.QEq (VObjectId oid))];
        mret (message_response "Request deleted successfully")
  end.

(** *** GET /user *)

Definition get_user (current_user : dict) : M dict :=
  uid ← lift (getitem current_user "uid");
  oid ← ObjectId uid;
  user ← find_one Users [("_id", mongo.QEq (VObjectId oid))];
  match some_doc user with
  | None => raise (HTTPException 404 "User not found" [])
  | Some user =>
      _id ← lift (getitem user "_id");
      let user_response : dict :=
        <["id" := VStr (py_str _id)]>
        (<["uid" := VStr (py_str _id)]>
         (<["email" := get user "email"]>
          (<["name" := get user "name"]>
           (<["picture" := get user "picture"]>
            (<["fcm_token" := get user "fcm_token"]>
             (<["created_at" := get user "created_at"]>
              (<["updated_at" := get user "updated_at"]> ∅))))))) in
      mret user_response
  end.

(** *** POST /user/fcm-token *)

Definition update_fcm_token (token_data : models.FCMTokenUpdate.t)
    (current_user : dict) (now : string) : M dict :=
  uid ← lift (getitem current_user "uid");
  oid ← ObjectId uid;
  _ ← update_one Users [("_id", mongo.QEq (VObjectId oid))]
        (<["fcm_token" :=
             VStr (models.FCMTokenUpdate.fcm_token token_data)]>
         (<["updated_at" := VStr now]> ∅));
  mret (message_response "FCM token updated").

(** *** POST /user/change-password *)

(** [salt] is the salt the hasher draws when the new password is
    hashed. *)
Definition change_password
    (password_data : models.PasswordChangeRequest.t) (current_user : dict)
    (now : string) (salt : string) : M dict :=
  let old_password :=
    models.PasswordChangeRequest.old_password password_data in
  let new_password :=
    models.PasswordChangeRequest.new_password password_data in
  try_except
    (uid ← lift (getitem current_user "uid");
     oid ← ObjectId uid;
     user ← find_one Users [("_id", mongo.QEq (VObjectId oid))];
     match some_doc user with
     | None => raise (HTTPException 404 "User not found" [])
     | Some user =>
         ok ← lift (auth.verify_password old_password
                      (get_or user "hashed_password" (VStr "")));
         if negb ok then
           raise (HTTPException 401 "Current password is incorrect" [])
         else if bool_decide (old_password = new_password) then
           raise (HTTPException 400
                    "New password must be different from current password"
                    [])
         else
           hashed_password ← lift (auth.get_password_hash salt new_password);
           uid ← lift (getitem current_user "uid");
           oid ← ObjectId uid;
           _ ← update_one Users [("_id", mongo.QEq (VObjectId oid))]
                 (<["hashed_password" := VStr hashed_password]>
                  (<["updated_at" := VStr now]> ∅));
           mret (message_response "Password changed successfully")
     end)
    (fun e =>
       if is_HTTPException e then raise e
       else if is_ValueError e then
         raise (HTTPException 400 (str_exn e) [])
       else
         raise (HTTPException 500
                  ("Password change failed: " +:+ str_exn e) [])).

(** *** DELETE /user *)

Record DeletedItems := {
  deleted_food_items : nat;
  requests_as_requester : nat;
  requests_as_donor : nat
}.

Record DeleteUserResponse := {
  delete_message : string;
  deleted_items : DeletedItems
}.

Definition delete_user (delete_request : models.DeleteAccountRequest.t)
    (current_user : dict) : M DeleteUserResponse :=
  try_except
    (uid ← lift (getitem current_user "uid");
     oid ← ObjectId uid;
     user ← find_one Users [("_id", mongo.QEq (VObjectId oid))];
     match some_doc user with
     | None => raise (HTTPException 404 "User not found" [])
     | Some user =>
         ok ← lift (auth.verify_password
                      (models.DeleteAccountRequest.password delete_request)
                      (get_or user "hashed_password" (VStr "")));
         if negb ok then
           raise (HTTPException 401 "Password is incorrect" [])
         else
           user_id ← lift (getitem current_user "uid");
           food_items_deleted ←
             delete_many FoodItems [("donor_uid", mongo.QEq user_id)];
           requests_as_requester_deleted ←
             delete_many Requests [("requester_uid", mongo.QEq user_id)];
           requests_as_donor_deleted ←
             delete_many Requests [("donor_uid", mongo.QEq user_id)];
           oid ← ObjectId user_id;
           _ ← delete_one Users [("_id", mongo.QEq (VObjectId oid))];
           mret {| delete_message := "Account deleted successfully";
                   deleted_items :=
                     {| deleted_food_items := food_items_deleted;
                        requests_as_requester :=
                          requests_as_requester_deleted;
                        requests_as_donor := requests_as_donor_deleted |}
                |}
     end)
    (fun e =>
       if is_HTTPException e then raise e
       else
         raise (HTTPException 500
                  ("Account deletion failed: " +:+ str_exn e) [])).

End main.
End main.

(** ** Reference instances of the boundary

    Instances on which the handlers can be evaluated: exact real
    arithmetic for [float], and small stand-ins for the libraries. *)

Module reference.

(** The ASCII part of the character database, enough to evaluate the
    validators on ASCII passwords. *)
#[export] Instance ascii_classes : Unicode := {|
  isalpha c := (65 <=? c) && (c <=? 90) || (97 <=? c) && (c <=? 122);
  isdigit c := (48 <=? c) && (c <=? 57);
  isspace c := (9 <=? c) && (c <=? 13) || (28 <=? c) && (c <=? 32)
|}.

#[export] Instance Rle_decision : RelDecision Rle := Rle_dec.
#[export] Instance R_eq_decision : EqDecision R := Req_dec_T.

(** Floats as exact reals; [math.asin] and [math.sqrt] keep their
    domain errors. *)
#[export] Instance real_float : PyFloat := {|
  float := R;
  float_eq_dec := Req_dec_T;
  float_of_int := IZR;
  float_of_str := fun _ => None;
  float_repr := fun _ => "<float>";
  float_bool := fun x => bool_decide (x <> 0%R);
  fadd := Rplus;
  fsub := Rminus;
  fmul := Rmult;
  fdiv := Rdiv;
  fpow := powerRZ;
  feqb := fun x y => bool_decide (x = y);
  fleb := fun x y => bool_decide (x <= y)%R;
  math_radians := fun x => (x * (PI / 180))%R;
  math_sin := fun x => Ok (sin x);
  math_cos := fun x => Ok (cos x);
  math_asin := fun x =>
    if decide (-1 <= x)%R then
      if decide (x <= 1)%R then Ok (asin x)
      else Raise (ValueError "math domain error")
    else Raise (ValueError "math domain error");
  math_sqrt := fun x =>
    if decide (0 <= x)%R then Ok (sqrt x)
    else Raise (ValueError "math domain error")
|}.

(** [bytes.fromhex]: pairs of hexadecimal digits, white space between
    pairs skipped. *)
Definition hex_value (a : ascii) : option Z :=
  let n := Z.of_N (N_of_ascii a) in
  if (48 <=? n) && (n <=? 57) then Some (n - 48)
  else if (97 <=? n) && (n <=? 102) then Some (n - 87)
  else if (65 <=? n) && (n <=? 70) then Some (n - 55)
  else None.

Definition is_ascii_space (a : ascii) : bool :=
  let n := Z.of_N (N_of_ascii a) in
  (9 <=? n) && (n <=? 13) || (n =? 32).

Fixpoint fromhex (s : string) : option (list Z) :=
  match s with
  | EmptyString => Some []
  | String a rest =>
      if is_ascii_space a then fromhex rest
      else
        match hex_value a, rest with
        | Some hi, String b rest' =>
            match hex_value b with
            | Some lo => cons (16 * hi + lo) <$> fromhex rest'
            | None => None
            end
        | _, _ => None
        end
  end.

(** Tokens as the triple a compact serialisation carries: algorithm,
    claims, signature. *)
Record jws := Jws {
  jws_alg : string;
  jws_claims : dict;
  jws_signature : string
}.

(** A keyed tag standing for the HMAC: the key itself. *)
Definition tag (key alg : string) : string := alg +:+ ":" +:+ key.

Definition strip_prefix (p s : string) : option string :=
  if String.prefix p s
  then Some (String.substring (String.length p)
               (String.length s - String.length p) s)
  else None.

#[export] Instance libraries : @Boundary real_float := {|
  getenv := fun _ => None;
  pwd_context_hash := fun salt secret =>
    if (String.length secret <=? 72)%nat then Ok ("$2b$" +:+ secret)
    else Raise (ValueError "password cannot be longer than 72 bytes");
  pwd_context_verify := fun secret hash =>
    match hash with
    | VNone => Ok false
    | VStr h =>
        match strip_prefix "$2b$" h with
        | Some digest => Ok (bool_decide (secret = digest))
        | None => Raise (ValueError "hash could not be identified")
        end
    | _ => Raise (TypeError "hash must be unicode or bytes")
    end;
  bcrypt_digest := fun salt secret => secret;
  token := jws;
  jwt_encode := fun claims key alg => Jws alg claims (tag key alg);
  jwt_decode := fun tok key algorithms utcnow =>
    if negb (bool_decide (jws_alg tok ∈ algorithms)) then
      Raise (JWTError "The specified alg value is not allowed")
    else if negb (String.eqb (jws_signature tok) (tag key (jws_alg tok)))
    then Raise (JWTError "Signature verification failed.")
    else
      match jws_claims tok !! "exp" with
      | Some (VInt exp) =>
          if exp <? utcnow then Raise (JWTError "Signature has expired.")
          else Ok (jws_claims tok)
      | Some _ =>
          Raise (JWTError
                   "Expiration Time claim (exp) must be an integer.")
      | None => Ok (jws_claims tok)
      end;
  jws_verify := fun tok key alg =>
    String.eqb (jws_alg tok) alg &&
    String.eqb (jws_signature tok) (tag key alg);
  messaging_send := fun fcm_token title body =>
    Ok ("projects/sharemeal/messages/" +:+ fcm_token);
  regex_search := fun pattern options subject =>
    contains (lower pattern) (lower subject);
  ObjectId_parse := fun s =>
    if (String.length s =? 24)%nat then fromhex s else None;
  ObjectId_str := hashlib.hexlify;
  ObjectId_generate := fun n => hashlib.be_bytes 12 (Z.of_nat n);
  repr_str := fun s => "'" +:+ s +:+ "'"
|}.

End reference.

(** * The vocabulary of the properties *)

Section vocabulary.
Context `{Boundary} `{Unicode}.

(** ** Password policy *)

(** The five ways a candidate password violates the policy. *)
Definition violates_policy (v : str) : Prop :=
  (v = [] \/ forallb isspace v = true)
  \/ (length v < 8)%nat
  \/ (128 < length v)%nat
  \/ existsb isalpha v = false
  \/ existsb isdigit v = false.

(** ** Tokens *)

(** The claim set a token is issued for, and the bundle verification
    returns for it. *)
Definition claim_set (sub email name : string) : dict :=
  <["sub" := VStr sub]>
  (<["email" := VStr email]> (<["name" := VStr name]> ∅)).

Definition user_bundle (uid email name : string) : dict :=
  <["uid" := VStr uid]>
  (<["email" := VStr email]> (<["name" := VStr name]> ∅)).

(** The expiry written into a token issued at [issued]: the caller's
    lifetime when one is given and is not zero, seven days otherwise. *)
Definition expiry_of (expires_delta : option Z) (issued : Z) : Z :=
  match expires_delta with
  | Some delta => if delta =? 0 then issued + 604800 else issued + delta
  | None => issued + 604800
  end.

(** ** Login *)

(** The two ways a login attempt fails: no user has the email, or the
    password does not verify against the stored hash of the user found. *)
Definition unknown_email (login_request : models.LoginRequest.t)
    (w : main.world) : Prop :=
  mongo.find_one
    [("email", mongo.QEq (VStr (models.LoginRequest.email login_request)))]
    (main.users w) = None.

Definition wrong_password (login_request : models.LoginRequest.t)
    (w : main.world) : Prop :=
  exists user,
    mongo.find_one
      [("email", mongo.QEq (VStr (models.LoginRequest.email login_request)))]
      (main.users w) = Some user
    /\ auth.verify_password (models.LoginRequest.password login_request)
         (get_or user "hashed_password" (VStr "")) = Ok false.

(** ** Errors and events *)

(** A response that is a structured error of the HTTP layer. *)
Definition structured_error {A} (r : result A) : Prop :=
  exists status detail headers,
    r = Raise (HTTPException status detail headers).

(** The messages handed to the push provider, oldest first. *)
Definition fcm_sends (w : main.world) : list main.event :=
  List.filter
    (fun ev => match ev with main.FcmSend _ _ _ => true | _ => false end)
    (main.trace w).

(** ** PATCH /food *)

(** The value the body of a PATCH carries for a key, if any. *)
Definition body_field (u : models.FoodItemUpdate.t) (k : string)
  : option value :=
  if decide (k = "items") then VList <$> models.FoodItemUpdate.items u
  else if decide (k = "available_until") then
    VStr <$> models.FoodItemUpdate.available_until u
  else if decide (k = "quantity") then
    VStr <$> models.FoodItemUpdate.quantity u
  else if decide (k = "pickup_address") then
    VStr <$> models.FoodItemUpdate.pickup_address u
  else if decide (k = "pickup_lng") then
    VFloat <$> models.FoodItemUpdate.pickup_lng u
  else if decide (k = "pickup_lat") then
    VFloat <$> models.FoodItemUpdate.pickup_lat u
  else if decide (k = "title") then VStr <$> models.FoodItemUpdate.title u
  else None.

(** A body that carries no field. *)
Definition body_empty (u : models.FoodItemUpdate.t) : Prop :=
  forall k, body_field u k = None.

(** What a PATCH writes under a key: the update timestamp, or the field
    of the body. *)
Definition written_field (u : models.FoodItemUpdate.t) (now k : string)
  : option value :=
  if decide (k = "updated_at") then Some (VStr now) else body_field u k.

(** ** GET /food *)

(** The filter document GET /food sends to the store. *)
Definition food_query (title location item : option string) (now : string)
  : mongo.query :=
  [("available_until", mongo.QGte (VStr now))]
  ++ match main.given title with
     | Some t => [("title", mongo.QRegex t "i")]
     | None => []
     end
  ++ match main.given location with
     | Some l => [("pickup_address", mongo.QRegex l "i")]
     | None => []
     end
  ++ match main.given item with
     | Some i => [("items", mongo.QRegex i "i")]
     | None => []
     end.

(** A stored item with both coordinates, as POST /food writes them. *)
Definition located (d : dict) : Prop :=
  exists x y,
    d !! "pickup_lat" = Some (VFloat x) /\ d !! "pickup_lng" = Some (VFloat y).

Definition coordinate (d : dict) (k : string) : float :=
  match d !! k with
  | Some (VFloat x) => x
  | _ => float_of_int 0
  end.

(** The distance the handler computes from an origin to an item. *)
Definition distance_to (lat lng : float) (d : dict) : result float :=
  main.haversine lat lng (coordinate d "pickup_lat")
                 (coordinate d "pickup_lng").

(** An item whose distance the handler can compute: it has coordinates,
    and no [math] function leaves its domain. *)
Definition measurable (lat lng : float) (d : dict) : Prop :=
  located d /\ exists distance, distance_to lat lng d = Ok distance.

(** An item whose computed distance is at most the radius. *)
Definition in_radius (lat lng radius_km : float) (d : dict) : bool :=
  match distance_to lat lng d with
  | Ok distance => fleb distance radius_km
  | Raise _ => false
  end.

End vocabulary.

(** The great-circle distance as the specification writes it, on real
    numbers: Earth radius 6371 km, angles in radians,
    [a = sin²(Δlat/2) + cos(lat)·cos(item_lat)·sin²(Δlng/2)] and
    [distance = 2·R·asin(√a)]. *)
Definition great_circle_km (lat lng item_lat item_lng : R) : R :=
  let radians x := (x * (PI / 180))%R in
  let dlat := radians (item_lat - lat)%R in
  let dlng := radians (item_lng - lng)%R in
  let a := (sin (dlat / 2) ^ 2
            + cos (radians lat) * cos (radians item_lat)
              * sin (dlng / 2) ^ 2)%R in
  (2 * 6371 * asin (sqrt a))%R.

(** * Example data, on the reference libraries *)

Module examples.
Import reference.

Definition alice_uid : string := "000000000000000000000001".
Definition bob_uid : string := "000000000000000000000002".

(** A registered account, with the hash the reference hasher gives
    "goodpass1". *)
Definition alice : dict :=
  <["_id" := VObjectId (hashlib.be_bytes 12 1)]>
  (<["email" := VStr "a@b.com"]>
   (<["name" := VStr "A"]>
    (<["hashed_password" :=
         VStr ("$2b$" +:+ auth._prehash_password (lit "goodpass1"))]> ∅))).

(** A second account, with a device token stored. *)
Definition bob : dict :=
  <["_id" := VObjectId (hashlib.be_bytes 12 2)]>
  (<["email" := VStr "b@b.com"]>
   (<["name" := VStr "B"]>
    (<["hashed_password" :=
         VStr ("$2b$" +:+ auth._prehash_password (lit "bobpass22"))]>
     (<["fcm_token" := VStr "bob-device"]> ∅)))).

(** What the token of each account verifies to. *)
Definition as_alice : dict := user_bundle alice_uid "a@b.com" "A".
Definition as_bob : dict := user_bundle bob_uid "b@b.com" "B".

Definition food_of (donor title : string) (lat lng : R) (n : Z) : dict :=
  <["_id" := VObjectId (hashlib.be_bytes 12 n)]>
  (<["title" := VStr title]>
   (<["pickup_lat" := VFloat lat]>
    (<["pickup_lng" := VFloat lng]>
     (<["pickup_address" := VStr "1 Main Street"]>
      (<["quantity" := VStr "2 boxes"]>
       (<["available_until" := VStr "2026-12-31T00:00:00+00:00"]>
        (<["items" := VList [title]]>
         (<["donor_uid" := VStr donor]>
          (<["created_at" := VStr "2026-01-01T00:00:00+00:00"]> ∅))))))))).

Definition pizza : dict := food_of alice_uid "Pizza" 0 0 16.
Definition bread : dict := food_of bob_uid "Bread" 0 1 17.
Definition salad : dict := food_of alice_uid "Salad" 10 10 18.

Definition request_of (requester donor food_id : string) (n : Z) : dict :=
  <["_id" := VObjectId (hashlib.be_bytes 12 n)]>
  (<["food_id" := VStr food_id]>
   (<["requester_uid" := VStr requester]>
    (<["donor_uid" := VStr donor]>
     (<["status" := VStr "pending"]>
      (<["notes" := VNone]>
       (<["created_at" := VStr "2026-02-01T00:00:00+00:00"]> ∅)))))).

(** Alice asked for Bob's bread, Bob asked for Alice's pizza. *)
Definition for_bread : dict :=
  request_of alice_uid bob_uid "000000000000000000000011" 32.
Definition for_pizza : dict :=
  request_of bob_uid alice_uid "000000000000000000000010" 33.

(** No account at all; one account; the account of the specification's
    deletion example, which owns two food items, has made one request and
    has received one; and both accounts. *)
Definition empty_world : main.world := main.World [] [] [] 0 [].

Definition one_user_world : main.world := main.World [alice] [] [] 1 [].

Definition sharing_world : main.world :=
  main.World [alice] [pizza; bread; salad] [for_bread; for_pizza] 40 [].

Definition notifying_world : main.world :=
  main.World [alice; bob] [pizza; bread; salad] [for_bread; for_pizza] 40 [].

(** A PATCH body that carries the quantity and nothing else. *)
Definition quantity_only : models.FoodItemUpdate.t :=
  models.FoodItemUpdate.Build _ None None None None (Some "5 boxes")
                              None None.

Definition noon : string := "2026-06-01T12:00:00+00:00".

End examples.

(** * Properties *)

(** Unfolds the monad of the handlers and the calls on the collections. *)
Ltac run :=
  unfold mbind, main.M_bind, main.lift, main.raise, main.try_except,
         main.find_one, main.update_one, main.delete_one, main.delete_many,
         main.ObjectId, getitem;
  cbn [fst snd main.coll].

(** ** The codecs agree with the published test vectors *)

Example sha256_empty :
  hashlib.hexlify (hashlib.sha256 []) =
  "e3b0c44298fc1c149afbf4c8996fb92427ae41e4649b934ca495991b7852b855".
Proof. vm_compute. reflexivity. Qed.

Example sha256_abc :
  hashlib.hexlify (hashlib.sha256 (codecs.encode_utf8 (lit "abc"))) =
  "ba7816bf8f01cfea414140de5dae2223b00361a396177a9cb410ff61f20015ad".
Proof. vm_compute. reflexivity. Qed.

Example sha256_two_blocks :
  hashlib.hexlify (hashlib.sha256 (replicate 70 97)) =
  "6bd5e5034855a11241f0dee8fc72850ffd9955b28347a86428b5fa19119f6ad0".
Proof. vm_compute. reflexivity. Qed.

Example prehash_goodpass1 :
  base64.b64encode (hashlib.sha256 (codecs.encode_utf8 (lit "goodpass1"))) =
  "yM20L7ouRBhu4QjYVFOUoqUGhy89uWmpwHr0Tywieyw=".
Proof. vm_compute. reflexivity. Qed.

(** ** Password policy (models.py) *)

Section password_policy.
Context `{Unicode}.
Import models.

Lemma lstrip_nil (v : str) :
  lstrip v = [] <-> forallb isspace v = true.
Proof.
  induction v as [|c v IH]; simpl; [tauto|].
  destruct (isspace c); simpl; [exact IH|].
  split; discriminate.
Qed.

Lemma lstrip_nonblank_last (v : str) (c : char) :
  isspace c = false -> lstrip (v ++ [c]) <> [].
Proof.
  intros Hc. induction v as [|d v IH]; simpl.
  - rewrite Hc. discriminate.
  - destruct (isspace d); [exact IH | discriminate].
Qed.

Lemma forallb_rev {A} (f : A -> bool) (l : list A) :
  forallb f (rev l) = forallb f l.
Proof.
  induction l as [|x l IH]; simpl; [reflexivity|].
  rewrite forallb_app, IH. simpl. rewrite andb_true_r. apply andb_comm.
Qed.

Lemma lstrip_suffix (v : str) : exists pre, v = pre ++ lstrip v /\
  forallb isspace pre = true.
Proof.
  induction v as [|c v [pre [E Hp]]]; simpl.
  - exists []. split; reflexivity.
  - destruct (isspace c) eqn:Hc.
    + exists (c :: pre). simpl. rewrite Hc, Hp.
      split; [congruence | reflexivity].
    + exists []. split; reflexivity.
Qed.

(** A string strips to nothing exactly when all of it is white space. *)
Lemma strip_length_0 (v : str) :
  length (strip v) = 0%nat <-> forallb isspace v = true.
Proof.
  unfold strip. rewrite length_rev.
  split.
  - intros Hlen. apply length_zero_iff_nil, lstrip_nil in Hlen.
    rewrite forallb_rev in Hlen.
    destruct (lstrip_suffix v) as [pre [E Hp]].
    rewrite E, forallb_app, Hp, Hlen. reflexivity.
  - intros Hall. apply length_zero_iff_nil, lstrip_nil.
    rewrite forallb_rev. apply lstrip_nil in Hall. rewrite Hall. reflexivity.
Qed.

(** [blank]: empty, or nothing but white space. *)
Lemma blank_spec (v : str) :
  blank v = true <-> v = [] \/ forallb isspace v = true.
Proof.
  unfold blank. destruct v as [|c v]; [tauto|].
  rewrite Nat.eqb_eq, strip_length_0.
  split; [auto | intros [?|?]; [discriminate | assumption]].
Qed.

Lemma blank_false (v : str) :
  blank v = false <-> ~ (v = [] \/ forallb isspace v = true).
Proof.
  rewrite <- blank_spec. destruct (blank v); split; congruence.
Qed.

(** Case analysis of a strength validator, once its body is unfolded. *)
Ltac policy_cases v :=
  unfold violates_policy;
  destruct (blank v) eqn:Hblank;
  [ apply blank_spec in Hblank
  | apply blank_false in Hblank;
    destruct (length v <? 8)%nat eqn:Hshort;
    [ apply Nat.ltb_lt in Hshort
    | apply Nat.ltb_ge in Hshort;
      destruct (128 <? length v)%nat eqn:Hlong;
      [ apply Nat.ltb_lt in Hlong
      | apply Nat.ltb_ge in Hlong;
        destruct (existsb isalpha v) eqn:Hletter;
        destruct (existsb isdigit v) eqn:Hdigit ] ] ];
  simpl.

Lemma register_password_rejected (v : str) :
  (exists msg, RegisterRequest.validate_password v = Raise (ValueError msg))
  <-> violates_policy v.
Proof.
  unfold RegisterRequest.validate_password. policy_cases v;
    (split; [intros [msg Hmsg]; try discriminate; tauto
            | intros Hv; try (eexists; reflexivity);
              exfalso; intuition (try discriminate; lia)]).
Qed.

Lemma register_password_accepted (v : str) :
  RegisterRequest.validate_password v = Ok v <-> ~ violates_policy v.
Proof.
  unfold RegisterRequest.validate_password. policy_cases v;
    (split; [intros Hok; try discriminate;
             intuition (try discriminate; lia)
            | intros Hv; try reflexivity; exfalso; apply Hv; tauto]).
Qed.

Lemma new_password_rejected (v : str) :
  (exists msg,
      PasswordChangeRequest.validate_new_password v = Raise (ValueError msg))
  <-> violates_policy v.
Proof.
  unfold PasswordChangeRequest.validate_new_password. policy_cases v;
    (split; [intros [msg Hmsg]; try discriminate; tauto
            | intros Hv; try (eexists; reflexivity);
              exfalso; intuition (try discriminate; lia)]).
Qed.

Lemma new_password_accepted (v : str) :
  PasswordChangeRequest.validate_new_password v = Ok v
  <-> ~ violates_policy v.
Proof.
  unfold PasswordChangeRequest.validate_new_password. policy_cases v;
    (split; [intros Hok; try discriminate;
             intuition (try discriminate; lia)
            | intros Hv; try reflexivity; exfalso; apply Hv; tauto]).
Qed.

(** C3. Password policy enforcement: a registration password, and the new
    password of a password change, is refused with a validation error
    exactly when it is empty or all white space, shorter than 8, longer
    than 128, without a letter, or without a digit; any other value is
    returned unchanged. *)
Theorem password_policy_enforced (v : str) :
  ((exists msg, RegisterRequest.validate_password v = Raise (ValueError msg))
   <-> violates_policy v)
  /\ (RegisterRequest.validate_password v = Ok v <-> ~ violates_policy v)
  /\ ((exists msg,
         PasswordChangeRequest.validate_new_password v
         = Raise (ValueError msg))
      <-> violates_policy v)
  /\ (PasswordChangeRequest.validate_new_password v = Ok v
      <-> ~ violates_policy v).
Proof.
  split; [apply register_password_rejected|].
  split; [apply register_password_accepted|].
  split; [apply new_password_rejected | apply new_password_accepted].
Qed.

End password_policy.

(** ** Password hashing (auth.py) *)






Section password_hashing.
Context `{Boundary}.


(** The contract of the adaptive hasher: it accepts a secret of at most 72
    bytes, and verification against a hash it produced compares the digest
    of the candidate with the digest of the hashed secret, under the salt
    of the hash. *)
Hypothesis hasher_accepts : forall salt secret,
  (String.length secret <= 72)%nat ->
  exists h, pwd_context_hash salt secret = Ok h.
Hypothesis hasher_verifies : forall salt secret h candidate,
  pwd_context_hash salt secret = Ok h ->
  (String.length candidate <= 72)%nat ->
  pwd_context_verify candidate (VStr h)
  = Ok (bool_decide (bcrypt_digest salt candidate = bcrypt_digest salt secret)).




End password_hashing.

(** ** Session tokens (auth.py) *)

Section tokens.
Context `{Boundary}.

(** The contract of the token library: decoding what was encoded with the
    same key and algorithm returns the claims until the [exp] claim is
    passed, fails with a token error after it, and fails with a token error
    on any token whose signature does not verify. *)
Hypothesis jwt_decodes : forall claims key alg utcnow exp,
  claims !! "exp" = Some (VInt exp) -> utcnow <= exp ->
  jwt_decode (jwt_encode claims key alg) key [alg] utcnow = Ok claims.
Hypothesis jwt_expires : forall claims key alg utcnow exp,
  claims !! "exp" = Some (VInt exp) -> exp < utcnow ->
  exists msg,
    jwt_decode (jwt_encode claims key alg) key [alg] utcnow
    = Raise (JWTError msg).
Hypothesis jwt_checks_signature : forall tok key alg utcnow,
  jws_verify tok key alg = false ->
  exists msg, jwt_decode tok key [alg] utcnow = Raise (JWTError msg).

Lemma create_access_token_unfold (data : dict) (delta : option Z)
    (issued : Z) :
  auth.create_access_token data delta issued
  = jwt_encode (<["exp" := VInt (expiry_of delta issued)]> data)
               auth.SECRET_KEY auth.ALGORITHM.
Proof.
  unfold auth.create_access_token, expiry_of, auth.ACCESS_TOKEN_EXPIRE_MINUTES.
  destruct delta as [d|]; [destruct (d =? 0)|]; reflexivity.
Qed.

(** C2. Token round trip: a token issued for [{sub, email, name}] and not
    yet expired verifies to exactly [{uid, email, name}]; once its expiry
    has passed, and for any token whose signature does not verify, the
    verification fails with the 401 credentials error. *)
Theorem token_round_trip (sub email name : string) (delta : option Z)
    (issued : Z) :
  let tok :=
    auth.create_access_token (claim_set sub email name) delta issued in
  (forall utcnow, utcnow <= expiry_of delta issued ->
     auth.verify_token tok utcnow = Ok (user_bundle sub email name))
  /\ (forall utcnow, expiry_of delta issued < utcnow ->
        auth.verify_token tok utcnow
        = Raise (HTTPException 401 "Invalid authentication credentials"
                   [("WWW-Authenticate", "Bearer")]))
  /\ (forall altered utcnow,
        jws_verify altered auth.SECRET_KEY auth.ALGORITHM = false ->
        auth.verify_token altered utcnow
        = Raise (HTTPException 401 "Invalid authentication credentials"
                   [("WWW-Authenticate", "Bearer")])).
Proof.
  cbv zeta. rewrite create_access_token_unfold.
  set (claims := <["exp" := VInt (expiry_of delta issued)]>
                   (claim_set sub email name)).
  assert (claims !! "exp" = Some (VInt (expiry_of delta issued))) as Hexp
    by apply lookup_insert_eq.
  split; [|split].
  - intros utcnow Hle. unfold auth.verify_token.
    rewrite (jwt_decodes claims _ _ utcnow _ Hexp Hle).
    unfold get, claims, claim_set, user_bundle.
    rewrite !lookup_insert_ne, !lookup_insert_eq by done. simpl.
    rewrite !lookup_insert_ne, !lookup_insert_eq by done. simpl.
    rewrite !lookup_insert_ne, !lookup_insert_eq by done. reflexivity.
  - intros utcnow Hlt. unfold auth.verify_token.
    destruct (jwt_expires claims auth.SECRET_KEY auth.ALGORITHM utcnow _
                Hexp Hlt) as [msg ->].
    reflexivity.
  - intros altered utcnow Hbad. unfold auth.verify_token.
    destruct (jwt_checks_signature altered auth.SECRET_KEY auth.ALGORITHM
                utcnow Hbad) as [msg ->].
    reflexivity.
Qed.

End tokens.

(** ** The document store *)

Section store.
Context `{Boundary}.

Lemma find_one_matches (q : mongo.query) (coll : list dict) (d : dict) :
  mongo.find_one q coll = Some d -> mongo.matches q d = true.
Proof. intros Hf. apply (find_some _ _ Hf). Qed.

(** The first match splits the collection: nothing before it matches, and
    [update_one] and [delete_one] act on it alone. *)
Lemma find_one_split (q : mongo.query) (coll : list dict) (d : dict) :
  mongo.find_one q coll = Some d ->
  exists before after,
    coll = before ++ d :: after
    /\ Forall (fun x => mongo.matches q x = false) before
    /\ (forall fields,
          mongo.update_one q fields coll = before ++ (fields ∪ d) :: after)
    /\ mongo.delete_one q coll = before ++ after.
Proof.
  unfold mongo.find_one.
  induction coll as [|x coll IH]; simpl; [discriminate|].
  destruct (mongo.matches q x) eqn:Hx.
  - intros [= ->]. exists [], coll. repeat split; auto.
  - intros Hf. destruct (IH Hf) as (before & after & -> & Hb & Hu & Hd).
    exists (x :: before), after. repeat split.
    + constructor; assumption.
    + intros fields. simpl. rewrite Hu. reflexivity.
    + simpl. rewrite Hd. reflexivity.
Qed.

(** Without a match, [update_one] and [delete_one] leave the collection
    as it is. *)
Lemma find_one_none_update_one (q : mongo.query) (fields : dict)
    (coll : list dict) :
  mongo.find_one q coll = None -> mongo.update_one q fields coll = coll.
Proof.
  unfold mongo.find_one.
  induction coll as [|d coll IH]; simpl; [reflexivity|].
  destruct (mongo.matches q d); [discriminate|].
  intros Hn. rewrite IH; auto.
Qed.

Lemma find_one_none_delete_one (q : mongo.query) (coll : list dict) :
  mongo.find_one q coll = None -> mongo.delete_one q coll = coll.
Proof.
  unfold mongo.find_one.
  induction coll as [|d coll IH]; simpl; [reflexivity|].
  destruct (mongo.matches q d); [discriminate|].
  intros Hn. rewrite IH; auto.
Qed.

(** A document found by a field that has to equal a value other than
    [None] is not the empty document. *)
Lemma found_by_field_nonempty (k : string) (v : value) (coll : list dict)
    (d : dict) :
  v <> VNone ->
  mongo.find_one [(k, mongo.QEq v)] coll = Some d ->
  some_doc (Some d) = Some d.
Proof.
  intros Hv Hf. apply find_one_matches in Hf.
  unfold some_doc. destruct (decide (d = ∅)) as [->|]; [|reflexivity].
  unfold mongo.matches in Hf. simpl in Hf. rewrite lookup_empty in Hf.
  rewrite bool_decide_eq_false_2 in Hf by assumption. discriminate.
Qed.

(** [delete_many] removes exactly the documents it counts, and none of
    what it leaves matches. *)
Lemma delete_many_count (q : mongo.query) (coll : list dict) :
  length coll
  = (length (mongo.delete_many q coll).1 + (mongo.delete_many q coll).2)%nat.
Proof.
  unfold mongo.delete_many. simpl.
  induction coll as [|d coll IH]; [reflexivity|].
  rewrite !filter_cons.
  destruct (mongo.matches q d) eqn:Hd.
  - rewrite decide_False by discriminate.
    rewrite decide_True by reflexivity. simpl. lia.
  - rewrite decide_True by reflexivity.
    rewrite decide_False by discriminate. simpl. lia.
Qed.

Lemma delete_many_clears (q : mongo.query) (coll : list dict) :
  Forall (fun d => mongo.matches q d = false) (mongo.delete_many q coll).1.
Proof.
  unfold mongo.delete_many. simpl. apply Forall_forall.
  intros d Hd. apply list_elem_of_filter in Hd. tauto.
Qed.

End store.

(** ** The route handlers (main.py) *)

Section user_endpoints.
Context `{Boundary}.

(** C10. POST /user/fcm-token performs no existence check: when the
    record of the authenticated user is gone, the update matches no
    document, leaves the collections as they are and still answers
    "FCM token updated", where GET /user, change-password and account
    deletion answer 404 "User not found". *)
Theorem fcm_token_update_without_user
    (token_data : models.FCMTokenUpdate.t)
    (password_data : models.PasswordChangeRequest.t)
    (delete_request : models.DeleteAccountRequest.t)
    (current_user : dict) (now salt uid : string) (oid : list Z)
    (w : main.world) :
  current_user !! "uid" = Some (VStr uid) ->
  ObjectId_parse uid = Some oid ->
  mongo.find_one [("_id", mongo.QEq (VObjectId oid))] (main.users w) = None ->
  (main.update_fcm_token token_data current_user now w).2
  = Ok (main.message_response "FCM token updated")
  /\ main.users (main.update_fcm_token token_data current_user now w).1
     = main.users w
  /\ main.food_items (main.update_fcm_token token_data current_user now w).1
     = main.food_items w
  /\ main.requests (main.update_fcm_token token_data current_user now w).1
     = main.requests w
  /\ (main.get_user current_user w).2
     = Raise (HTTPException 404 "User not found" [])
  /\ (main.change_password password_data current_user now salt w).2
     = Raise (HTTPException 404 "User not found" [])
  /\ (main.delete_user delete_request current_user w).2
     = Raise (HTTPException 404 "User not found" []).
Proof.
  intros Huid Hparse Hgone.
  unfold main.update_fcm_token, main.get_user, main.change_password,
         main.delete_user.
  run. rewrite Huid. simpl. rewrite Hparse. simpl. rewrite Hgone. simpl.
  rewrite find_one_none_update_one by assumption.
  repeat split.
Qed.

End user_endpoints.

Section login_endpoint.
Context `{Boundary}.

Lemma login_unknown_email (login_request : models.LoginRequest.t)
    (utcnow : Z) (now : string) (w : main.world) :
  unknown_email login_request w ->
  (main.login login_request utcnow now w).2
  = Raise (HTTPException 401 "Invalid email or password" []).
Proof.
  unfold unknown_email. intros Hnone.
  unfold main.login. run. rewrite Hnone. reflexivity.
Qed.

Lemma login_wrong_password (login_request : models.LoginRequest.t)
    (utcnow : Z) (now : string) (w : main.world) :
  wrong_password login_request w ->
  (main.login login_request utcnow now w).2
  = Raise (HTTPException 401 "Invalid email or password" []).
Proof.
  intros (user & Hfound & Hverify).
  unfold main.login. run. rewrite Hfound.
  assert (some_doc (Some user) = Some user) as ->
    by (eapply found_by_field_nonempty; [|exact Hfound]; done).
  rewrite Hverify. reflexivity.
Qed.

(** C4. Login failure indistinguishability: an attempt with an unknown
    email and an attempt with a wrong password get the same response, 401
    "Invalid email or password". *)
Theorem login_failures_indistinguishable
    (unknown wrong : models.LoginRequest.t) (utcnow utcnow' : Z)
    (now now' : string) (w w' : main.world) :
  unknown_email unknown w ->
  wrong_password wrong w' ->
  (main.login unknown utcnow now w).2
  = Raise (HTTPException 401 "Invalid email or password" [])
  /\ (main.login wrong utcnow' now' w').2
     = Raise (HTTPException 401 "Invalid email or password" [])
  /\ (main.login unknown utcnow now w).2
     = (main.login wrong utcnow' now' w').2.
Proof.
  intros Hunknown Hwrong.
  rewrite (login_unknown_email _ _ _ _ Hunknown).
  rewrite (login_wrong_password _ _ _ _ Hwrong).
  repeat split.
Qed.

End login_endpoint.

Section account_deletion.
Context `{Boundary}.

Lemma delete_one_found_length (q : mongo.query) (coll : list dict)
    (d : dict) :
  mongo.find_one q coll = Some d ->
  length coll = S (length (mongo.delete_one q coll)).
Proof.
  intros Hf. destruct (find_one_split q coll d Hf)
    as (before & after & -> & _ & _ & ->).
  rewrite !length_app. simpl. lia.
Qed.

(** C9. Account deletion: once the password has verified, the handler
    deletes the user's food items, then the requests the user made, then
    the requests for the user's items, then the user record, in this order
    and with no other call on the store; the three counts it returns are
    the numbers of documents removed by the three bulk deletions. *)
Theorem delete_user_cascade (delete_request : models.DeleteAccountRequest.t)
    (current_user : dict) (uid : string) (oid : list Z) (user : dict)
    (w : main.world) :
  current_user !! "uid" = Some (VStr uid) ->
  ObjectId_parse uid = Some oid ->
  mongo.find_one [("_id", mongo.QEq (VObjectId oid))] (main.users w)
  = Some user ->
  auth.verify_password (models.DeleteAccountRequest.password delete_request)
    (get_or user "hashed_password" (VStr "")) = Ok true ->
  let by_id := [("_id", mongo.QEq (VObjectId oid))] in
  let by_donor := [("donor_uid", mongo.QEq (VStr uid))] in
  let by_requester := [("requester_uid", mongo.QEq (VStr uid))] in
  let food := mongo.delete_many by_donor (main.food_items w) in
  let outgoing := mongo.delete_many by_requester (main.requests w) in
  let incoming := mongo.delete_many by_donor outgoing.1 in
  main.delete_user delete_request current_user w
  = (main.World (mongo.delete_one by_id (main.users w)) food.1 incoming.1
       (main.generated w)
       (main.trace w ++
        [main.DbCall main.Users "find_one" by_id;
         main.DbCall main.FoodItems "delete_many" by_donor;
         main.DbCall main.Requests "delete_many" by_requester;
         main.DbCall main.Requests "delete_many" by_donor;
         main.DbCall main.Users "delete_one" by_id]),
     Ok {| main.delete_message := "Account deleted successfully";
           main.deleted_items :=
             {| main.deleted_food_items := food.2;
                main.requests_as_requester := outgoing.2;
                main.requests_as_donor := incoming.2 |} |})
  /\ length (main.food_items w) = (length food.1 + food.2)%nat
  /\ length (main.requests w) = (length outgoing.1 + outgoing.2)%nat
  /\ length outgoing.1 = (length incoming.1 + incoming.2)%nat
  /\ length (main.users w)
     = S (length (mongo.delete_one by_id (main.users w)))
  /\ Forall (fun d => mongo.matches by_donor d = false) food.1
  /\ Forall (fun d => mongo.matches by_requester d = false
                      /\ mongo.matches by_donor d = false) incoming.1.
Proof.
  intros Huid Hparse Hfound Hverify. cbv zeta.
  split; [|repeat split].
  - unfold main.delete_user. run.
    rewrite Huid. simpl. rewrite Hparse. simpl. rewrite Hfound.
    assert (some_doc (Some user) = Some user) as ->
      by (eapply found_by_field_nonempty; [|exact Hfound]; done).
    rewrite Hverify. simpl. rewrite ?Hparse. simpl.
    unfold main.record, main.set_coll. simpl.
    rewrite <- !app_assoc. reflexivity.
  - apply delete_many_count.
  - apply delete_many_count.
  - apply delete_many_count.
  - apply (delete_one_found_length _ _ user Hfound).
  - apply delete_many_clears.
  - apply Forall_forall. intros d Hd. split.
    + unfold mongo.delete_many in Hd. simpl in Hd.
      apply list_elem_of_filter in Hd as [_ Hd].
      apply list_elem_of_filter in Hd as [Hd _]. exact Hd.
    + revert d Hd. apply Forall_forall, delete_many_clears.
Qed.

End account_deletion.

Section food_update.
Context `{Boundary}.
Import models.

Lemma set_if_lookup {A} (k0 : string) (field : option A) (inj : A -> value)
    (m : dict) (k : string) :
  main.set_if k0 field inj m !! k
  = if decide (k = k0) then
      match field with Some x => Some (inj x) | None => m !! k end
    else m !! k.
Proof.
  unfold main.set_if. destruct field as [x|].
  - case_decide as E.
    + subst. apply lookup_insert_eq.
    + apply lookup_insert_ne. congruence.
  - case_decide; reflexivity.
Qed.

Lemma build_update_data_lookup (u : FoodItemUpdate.t) (k : string) :
  main.build_update_data u !! k = body_field u k.
Proof.
  unfold main.build_update_data, body_field.
  rewrite !set_if_lookup, lookup_empty.
  destruct u as [t la lo ad qu av it]; simpl.
  repeat case_decide; subst; try discriminate;
    destruct t, la, lo, ad, qu, av, it; reflexivity.
Qed.
Lemma find_one_app (q : mongo.query) (before after : list dict) (d : dict) :
  Forall (fun x => mongo.matches q x = false) before ->
  mongo.matches q d = true ->
  mongo.find_one q (before ++ d :: after) = Some d.
Proof.
  unfold mongo.find_one. induction 1 as [|x before Hx _ IH]; simpl; intros Hd.
  - rewrite Hd. reflexivity.
  - rewrite Hx. auto.
Qed.

Lemma build_update_data_empty (u : FoodItemUpdate.t) :
  main.build_update_data u = ∅ <-> body_empty u.
Proof.
  unfold body_empty. split.
  - intros E k. rewrite <- build_update_data_lookup, E. apply lookup_empty.
  - intros E. apply map_eq. intros k.
    rewrite build_update_data_lookup, E, lookup_empty. reflexivity.
Qed.

(** C7. Sparse update: a PATCH by the donor of an existing item writes
    the fields the body carries and the update timestamp into that item and
    leaves every other field of it, and every other document, as they
    were; a body that carries no field is refused with 400 "No fields to
    update" and nothing is written. *)
Theorem sparse_update (food_id : string) (food_update : FoodItemUpdate.t)
    (current_user : dict) (now : string) (w : main.world)
    (oid : list Z) (food : dict) (donor uid : value) :
  ObjectId_parse food_id = Some oid ->
  mongo.find_one [("_id", mongo.QEq (VObjectId oid))] (main.food_items w)
  = Some food ->
  food !! "donor_uid" = Some donor ->
  current_user !! "uid" = Some uid ->
  py_eq donor uid = true ->
  let after_call :=
    main.update_food_item food_id food_update current_user now w in
  (body_empty food_update ->
     after_call.2 = Raise (HTTPException 400 "No fields to update" [])
     /\ main.users after_call.1 = main.users w
     /\ main.food_items after_call.1 = main.food_items w
     /\ main.requests after_call.1 = main.requests w)
  /\ (~ body_empty food_update ->
      exists before after written,
        main.food_items w = before ++ food :: after
        /\ main.food_items after_call.1 = before ++ written :: after
        /\ (forall k,
              written !! k
              = match written_field food_update now k with
                | Some v => Some v
                | None => food !! k
                end)
        /\ main.users after_call.1 = main.users w
        /\ main.requests after_call.1 = main.requests w
        /\ after_call.2
           = (main.with_id written ≫= FoodItemResponse.of_dict)).
Proof.
  intros Hparse Hfound Hdonor Huid Howner. cbv zeta.
  assert (some_doc (Some food) = Some food) as Hdoc
    by (eapply found_by_field_nonempty; [|exact Hfound]; done).
  destruct (find_one_split _ _ _ Hfound)
    as (before & after & Hcoll & Hbefore & Hupd & _).
  split.
  - intros Hempty. apply build_update_data_empty in Hempty.
    unfold main.update_food_item. run.
    rewrite Hparse. simpl. rewrite Hfound, Hdoc, Hdonor, Huid, Howner. simpl.
    rewrite Hempty. rewrite decide_True by reflexivity. simpl. auto.
  - intros Hsome. rewrite <- build_update_data_empty in Hsome.
    set (fields := <["updated_at" := VStr now]>
                     (main.build_update_data food_update)).
    assert (forall k,
               (fields ∪ food) !! k
               = match written_field food_update now k with
                 | Some v => Some v
                 | None => food !! k
                 end) as Hwritten.
    { intros k. rewrite lookup_union. unfold fields, written_field.
      case_decide as E.
      - subst. rewrite lookup_insert_eq.
        destruct (food !! "updated_at"); reflexivity.
      - rewrite lookup_insert_ne by congruence.
        rewrite build_update_data_lookup.
        destruct (body_field food_update k), (food !! k); reflexivity. }
    assert (mongo.matches [("_id", mongo.QEq (VObjectId oid))]
                          (fields ∪ food) = true) as Hstill.
    { pose proof (find_one_matches _ _ _ Hfound) as Hm.
      unfold mongo.matches in *. simpl in *.
      rewrite Hwritten. unfold written_field, body_field. simpl. exact Hm. }
    exists before, after, (fields ∪ food).
    unfold main.update_food_item. run.
    rewrite Hparse. simpl. rewrite Hfound, Hdoc, Hdonor, Huid, Howner. simpl.
    rewrite decide_False by assumption. simpl.
    fold fields. rewrite Hupd.
    rewrite (find_one_app _ _ _ _ Hbefore Hstill). simpl.
    destruct (main.with_id (fields ∪ food)); simpl; repeat split;
      assumption.
Qed.
End food_update.

Section path_identifiers.
Context `{Boundary}.

(** C6, as the code has it. An identifier from the path that is not a
    valid ObjectId stops each of the five handlers before the store is
    called and before anything is written: the construction of the
    ObjectId raises InvalidId, which no handler catches, so it leaves the
    handler as an unhandled exception and not as a structured error. *)
Theorem malformed_identifier_unhandled (id : string)
    (food_update : models.FoodItemUpdate.t)
    (request_data : models.RequestCreate.t)
    (update_data : models.RequestUpdate.t)
    (current_user : dict) (now : string) (w : main.world) :
  ObjectId_parse id = None ->
  main.update_food_item id food_update current_user now w
  = (w, Raise (InvalidId id))
  /\ main.delete_food_item id current_user w = (w, Raise (InvalidId id))
  /\ main.create_request id request_data current_user now w
     = (w, Raise (InvalidId id))
  /\ main.update_request id update_data current_user now w
     = (w, Raise (InvalidId id))
  /\ main.delete_request id current_user w = (w, Raise (InvalidId id))
  /\ ~ structured_error (A := unit) (Raise (InvalidId id)).
Proof.
  intros Hbad.
  unfold main.update_food_item, main.delete_food_item, main.create_request,
         main.update_request, main.delete_request.
  run. rewrite Hbad. repeat split.
  intros (status & detail & headers & E). discriminate E.
Qed.

End path_identifiers.

(** ** The radius stage of GET /food *)

(** The haversine term lies between 0 and 1. *)
Lemma haversine_term_range (p1 p2 dl : R) :
  (0 <= sin ((p2 - p1) / 2) ^ 2 + cos p1 * cos p2 * sin (dl / 2) ^ 2 <= 1)%R.
Proof.
  pose proof (cos_2a_sin ((p2 - p1) / 2)) as Hhalf.
  replace (2 * ((p2 - p1) / 2))%R with (p2 - p1)%R in Hhalf by lra.
  pose proof (cos_minus p2 p1) as Hminus.
  pose proof (cos_plus p2 p1) as Hplus.
  pose proof (COS_bound (p2 - p1)) as [Hu1 Hu2].
  pose proof (COS_bound (p2 + p1)) as [Hv1 Hv2].
  pose proof (SIN_bound (dl / 2)) as [Hs1 Hs2].
  set (u := cos (p2 - p1)) in *. set (v := cos (p2 + p1)) in *.
  set (s := sin (dl / 2)) in *. set (h := sin ((p2 - p1) / 2)) in *.
  set (c1 := cos p1) in *. set (c2 := cos p2) in *.
  set (s1 := sin p1) in *. set (s2 := sin p2) in *.
  assert (h ^ 2 = (1 - u) / 2)%R as -> by (simpl; lra).
  assert (c1 * c2 = (u + v) / 2)%R as -> by lra.
  assert (0 <= s ^ 2 <= 1)%R as [Ht1 Ht2] by (simpl; nra).
  set (t := (s ^ 2)%R) in *.
  split; nra.
Qed.

(** On exact reals the square root and the arc sine of the handler stay
    inside their domains, and the distance it computes is the
    specification's. *)
Lemma haversine_real (lat lng item_lat item_lng : R) :
  main.haversine (H := reference.real_float) lat lng item_lat item_lng
  = Ok (great_circle_km lat lng item_lat item_lng).
Proof.
  unfold main.haversine, great_circle_km.
  cbn -[powerRZ PI sin cos sqrt asin IZR pow].
  change (powerRZ ?x 2) with (x ^ 2)%R.
  set (a := (sin ((item_lat - lat) * (PI / 180) / 2) ^ 2
             + cos (lat * (PI / 180)) * cos (item_lat * (PI / 180))
               * sin ((item_lng - lng) * (PI / 180) / 2) ^ 2)%R).
  assert (0 <= a <= 1)%R as [Ha0 Ha1].
  { unfold a.
    replace ((item_lat - lat) * (PI / 180))%R
      with (item_lat * (PI / 180) - lat * (PI / 180))%R by lra.
    apply haversine_term_range. }
  rewrite decide_True by exact Ha0. simpl.
  assert (0 <= sqrt a <= 1)%R as [Hr0 Hr1].
  { split; [apply sqrt_pos|].
    rewrite <- sqrt_1. apply sqrt_le_1_alt. exact Ha1. }
  rewrite decide_True by lra. rewrite decide_True by exact Hr1. simpl.
  unfold mret, result_ret. f_equal. lra.
Qed.

Section radius_stage.
Context `{Boundary}.

(** The loop keeps, in their order, the items in the radius. *)
Lemma radius_loop_keeps (lat lng radius_km : float) (items acc : list dict) :
  Forall (measurable lat lng) items ->
  main.radius_loop lat lng radius_km items acc
  = Ok (acc ++ List.filter (in_radius lat lng radius_km) items).
Proof.
  intros Hall. revert acc.
  induction Hall as [|d items [(x & y & Hx & Hy) [dist Hdist]] _ IH];
    intros acc.
  - simpl. rewrite app_nil_r. reflexivity.
  - unfold in_radius, distance_to, coordinate in *.
    rewrite Hx, Hy in Hdist.
    cbn [main.radius_loop List.filter]. unfold get.
    rewrite Hx, Hy, Hdist.
    cbn -[main.radius_loop List.filter].
    rewrite Hdist. cbn -[main.radius_loop List.filter].
    destruct (fleb dist radius_km).
    + rewrite IH, <- app_assoc. reflexivity.
    + rewrite IH. reflexivity.
Qed.

(** C8. Geo filter: GET /food fetches the non-expired matching items and
    passes them through the radius stage.  The stage returns them as they
    are unless latitude, longitude and radius are all three given; given
    all three, it keeps exactly the items whose computed distance from the
    origin is at most the radius; and the distance it computes is, on real
    numbers, the haversine distance of the specification with Earth
    radius 6371 km. *)
Theorem geo_filter_correct (title location item : option string)
    (lat lng radius_km : option float) (current_user : dict) (now : string)
    (w : main.world) (items : list dict) :
  (main.get_food_items title location lat lng radius_km item current_user
     now w).2
  = (main.radius_filter lat lng radius_km
       (mongo.find_to_list (food_query title location item now) 1000
          (main.food_items w))
     ≫= mapM (fun d => main.with_id d ≫= models.FoodItemResponse.of_dict))
  /\ (lat = None \/ lng = None \/ radius_km = None ->
      main.radius_filter lat lng radius_km items = Ok items)
  /\ (forall la lo r,
        Forall (measurable la lo) items ->
        main.radius_filter (Some la) (Some lo) (Some r) items
        = Ok (List.filter (in_radius la lo r) items))
  /\ (forall la lo item_lat item_lng : R,
        main.haversine (H := reference.real_float) la lo item_lat item_lng
        = Ok (great_circle_km la lo item_lat item_lng)).
Proof.
  split; [|split; [|split]].
  - unfold main.get_food_items, food_query. run. unfold main.find_to_list.
    cbn [fst snd main.coll].
    destruct (main.given title), (main.given location), (main.given item);
      cbn [app];
      destruct (main.radius_filter lat lng radius_km _); reflexivity.
  - intros [-> | [-> | ->]]; unfold main.radius_filter;
      repeat match goal with
             | |- context [match ?o with Some _ => _ | None => _ end] =>
                 destruct o
             end; reflexivity.
  - intros la lo r Hall. apply (radius_loop_keeps _ _ _ _ [] Hall).
  - apply haversine_real.
Qed.

End radius_stage.

(** * The properties on the reference libraries

    The contracts assumed of the libraries hold of the reference
    instances, and each property is applied to concrete requests. *)

Import reference.
Import examples.

(** ** The reference hasher and token library meet their contracts *)




Lemma reference_jwt_decodes (claims : dict) (key alg : string)
    (utcnow exp : Z) :
  claims !! "exp" = Some (VInt exp) -> utcnow <= exp ->
  jwt_decode (jwt_encode claims key alg) key [alg] utcnow = Ok claims.
Proof.
  intros Hexp Hle. simpl.
  rewrite bool_decide_eq_true_2 by apply list_elem_of_singleton, eq_refl.
  rewrite String.eqb_refl. simpl. rewrite Hexp.
  destruct (exp <? utcnow) eqn:E; [apply Z.ltb_lt in E; lia | reflexivity].
Qed.

Lemma reference_jwt_expires (claims : dict) (key alg : string)
    (utcnow exp : Z) :
  claims !! "exp" = Some (VInt exp) -> exp < utcnow ->
  exists msg,
    jwt_decode (jwt_encode claims key alg) key [alg] utcnow
    = Raise (JWTError msg).
Proof.
  intros Hexp Hlt. simpl.
  rewrite bool_decide_eq_true_2 by apply list_elem_of_singleton, eq_refl.
  rewrite String.eqb_refl. simpl. rewrite Hexp.
  destruct (exp <? utcnow) eqn:E; [eauto | apply Z.ltb_ge in E; lia].
Qed.

Lemma reference_jwt_checks_signature (tok : token) (key alg : string)
    (utcnow : Z) :
  jws_verify tok key alg = false ->
  exists msg, jwt_decode tok key [alg] utcnow = Raise (JWTError msg).
Proof.
  simpl. intros Hbad.
  destruct (bool_decide (jws_alg tok ∈ [alg])) eqn:Halg; simpl; [|eauto].
  apply bool_decide_eq_true_1, list_elem_of_singleton in Halg.
  rewrite Halg in *. rewrite String.eqb_refl in Hbad. simpl in Hbad.
  rewrite Hbad. simpl. eauto.
Qed.

(** ** Credentials *)

(** The specification's policy examples, on the ASCII character classes. *)
Example policy_examples :
  models.RegisterRequest.validate_password (lit "short1")
  = Raise (ValueError "Password must be at least 8 characters long")
  /\ models.RegisterRequest.validate_password (lit "alllettersnodigit")
     = Raise (ValueError "Password must contain at least one number")
  /\ models.RegisterRequest.validate_password (lit "12345678")
     = Raise (ValueError "Password must contain at least one letter")
  /\ models.RegisterRequest.validate_password (lit "goodpass1")
     = Ok (lit "goodpass1").
Proof. repeat split; vm_compute; reflexivity. Qed.


(** The specification's token example: issued at second 1000 with the
    default lifetime, the token verifies at once, fails after its expiry,
    and fails with its signature replaced. *)
Lemma token_round_trip_witness :
  let tok :=
    auth.create_access_token (claim_set "abc123" "a@b.com" "A") None 1000 in
  auth.verify_token tok 1000 = Ok (user_bundle "abc123" "a@b.com" "A")
  /\ auth.verify_token tok 605801
     = Raise (HTTPException 401 "Invalid authentication credentials"
                [("WWW-Authenticate", "Bearer")])
  /\ auth.verify_token
       (Jws (jws_alg tok) (jws_claims tok) "altered") 1000
     = Raise (HTTPException 401 "Invalid authentication credentials"
                [("WWW-Authenticate", "Bearer")]).
Proof.
  pose proof (token_round_trip
                reference_jwt_decodes reference_jwt_expires
                reference_jwt_checks_signature
                "abc123" "a@b.com" "A" None 1000) as W.
  cbv zeta in *. destruct W as [Hok [Hexpired Haltered]].
  split; [apply Hok; vm_compute; discriminate|].
  split; [apply Hexpired; vm_compute; reflexivity|].
  apply Haltered. vm_compute. reflexivity.
Defined.

(** ** Handlers *)

(** An unknown email and a wrong password for a known one get the same
    answer. *)
Lemma login_failures_indistinguishable_witness :
  (main.login (models.LoginRequest.Build "nobody@b.com" (lit "goodpass1"))
     1000 noon one_user_world).2
  = (main.login (models.LoginRequest.Build "a@b.com" (lit "badpass99"))
       1000 noon one_user_world).2.
Proof.
  apply (login_failures_indistinguishable
           (models.LoginRequest.Build "nobody@b.com" (lit "goodpass1"))
           (models.LoginRequest.Build "a@b.com" (lit "badpass99"))).
  - reflexivity.
  - exists alice. split; reflexivity.
Defined.

(** The right password logs in, for comparison. *)
Example login_succeeds :
  (main.login (models.LoginRequest.Build "a@b.com" (lit "goodpass1"))
     1000 noon one_user_world).2
  ≫= (fun response => Ok (main.message response))
  = Ok "Login successful".
Proof. reflexivity. Qed.

(** The bearer of a token whose account has no record any more. *)
Lemma fcm_token_update_without_user_witness :
  (main.update_fcm_token (models.FCMTokenUpdate.Build "device-token")
     as_alice noon empty_world).2
  = Ok (main.message_response "FCM token updated")
  /\ (main.get_user as_alice empty_world).2
     = Raise (HTTPException 404 "User not found" []).
Proof.
  pose proof (fcm_token_update_without_user
                (models.FCMTokenUpdate.Build "device-token")
                (models.PasswordChangeRequest.Build [] [])
                (models.DeleteAccountRequest.Build [])
                as_alice noon "salt" alice_uid
                (hashlib.be_bytes 12 1) empty_world) as W.
  destruct W as (Hfcm & _ & _ & _ & Hget & _);
    [reflexivity | reflexivity | reflexivity |].
  split; [exact Hfcm | exact Hget].
Defined.

(** The specification's deletion example: the counts are 2, 1 and 1, and
    what is left is Bob's bread. *)
Lemma delete_user_cascade_witness :
  let served :=
    main.delete_user (models.DeleteAccountRequest.Build (lit "goodpass1"))
      as_alice sharing_world in
  served.2
  = Ok {| main.delete_message := "Account deleted successfully";
          main.deleted_items :=
            {| main.deleted_food_items := 2;
               main.requests_as_requester := 1;
               main.requests_as_donor := 1 |} |}
  /\ main.users served.1 = []
  /\ main.food_items served.1 = [bread]
  /\ main.requests served.1 = [].
Proof.
  pose proof (delete_user_cascade
                (models.DeleteAccountRequest.Build (lit "goodpass1"))
                as_alice alice_uid (hashlib.be_bytes 12 1) alice
                sharing_world) as W.
  cbv zeta in *. destruct W as [E _]; try reflexivity.
  rewrite E. repeat split; reflexivity.
Defined.

(** The specification's update example: a PATCH that carries only the
    quantity rewrites the quantity and the update timestamp of the item and
    keeps its title, address, coordinates, items and expiry. *)
Lemma sparse_update_witness :
  exists before after written,
    main.food_items sharing_world = before ++ pizza :: after
    /\ main.food_items
         (main.update_food_item "000000000000000000000010" quantity_only
            as_alice noon sharing_world).1
       = before ++ written :: after
    /\ written !! "quantity" = Some (VStr "5 boxes")
    /\ written !! "updated_at" = Some (VStr noon)
    /\ written !! "title" = pizza !! "title"
    /\ written !! "pickup_address" = pizza !! "pickup_address"
    /\ written !! "pickup_lat" = pizza !! "pickup_lat"
    /\ written !! "pickup_lng" = pizza !! "pickup_lng"
    /\ written !! "items" = pizza !! "items"
    /\ written !! "available_until" = pizza !! "available_until".
Proof.
  pose proof (sparse_update "000000000000000000000010" quantity_only
                as_alice noon sharing_world
                (hashlib.be_bytes 12 16) pizza (VStr alice_uid)
                (VStr alice_uid)) as W.
  cbv zeta in W. destruct W as [_ W]; try reflexivity.
  destruct W as (before & after & written & Hc & Hc' & Hk & _).
  { intros Hempty. specialize (Hempty "quantity"). discriminate Hempty. }
  exists before, after, written.
  split; [exact Hc|]. split; [exact Hc'|].
  rewrite !Hk. repeat split.
Defined.

(** The same request evaluated: the stored items afterwards, and the
    refusal of an empty body. *)
Example sparse_update_evaluated :
  main.food_items
    (main.update_food_item "000000000000000000000010" quantity_only
       as_alice noon sharing_world).1
  = [<["updated_at" := VStr noon]> (<["quantity" := VStr "5 boxes"]> pizza);
     bread; salad]
  /\ (main.update_food_item "000000000000000000000010"
        (models.FoodItemUpdate.Build _ None None None None None None None)
        as_alice noon sharing_world).2
     = Raise (HTTPException 400 "No fields to update" []).
Proof. split; reflexivity. Qed.

(** The path identifier "not-an-id" is not an ObjectId: every handler that
    takes it ends in an unhandled InvalidId and leaves the world as it
    was. *)
Lemma malformed_identifier_witness :
  main.update_food_item "not-an-id" quantity_only as_alice noon
    sharing_world
  = (sharing_world, Raise (InvalidId "not-an-id"))
  /\ main.delete_request "not-an-id" as_alice sharing_world
     = (sharing_world, Raise (InvalidId "not-an-id")).
Proof.
  pose proof (malformed_identifier_unhandled "not-an-id" quantity_only
                (models.RequestCreate.Build None)
                (models.RequestUpdate.Build "accepted")
                as_alice noon sharing_world) as W.
  destruct W as (Hpatch & _ & _ & _ & Hdelete & _); [reflexivity|].
  split; [exact Hpatch | exact Hdelete].
Defined.

(** C6 as the specification states it fails on PATCH /food/not-an-id: the
    identifier is not a valid ObjectId, and the outcome is the InvalidId
    exception, not a structured error. *)
Lemma malformed_identifier_counterexample :
  ObjectId_parse "not-an-id" = None
  /\ (main.update_food_item "not-an-id" quantity_only as_alice noon
        sharing_world).2
     = Raise (InvalidId "not-an-id")
  /\ ~ structured_error
        (main.update_food_item "not-an-id" quantity_only as_alice noon
           sharing_world).2.
Proof.
  split; [reflexivity|]. split; [reflexivity|].
  intros (status & detail & headers & E). discriminate E.
Qed.

(** C5 on the code. Alice, the donor, takes the request Bob made for her
    pizza back to "pending": the status is stored and answered as
    "pending", and Bob, who has a device token, is sent one notification,
    which says that the request was rejected. *)
Theorem pending_transition_notifies :
  let served :=
    main.update_request "000000000000000000000021"
      (models.RequestUpdate.Build "pending") as_alice noon
      notifying_world in
  fcm_sends served.1
  = [main.FcmSend "bob-device" "Request Rejected"
       "Your request for Pizza has been rejected"]
  /\ (served.2 ≫= fun r => Ok (models.RequestResponse.status r))
     = Ok "pending"
  /\ (mongo.find_one
        [("_id", mongo.QEq (VObjectId (hashlib.be_bytes 12 33)))]
        (main.requests served.1)
      ≫= fun d => d !! "status") = Some (VStr "pending").
Proof. cbv zeta. repeat split; reflexivity. Qed.

(** The two outcomes that do carry a message of their own. *)
Example accepted_and_rejected_notify :
  fcm_sends
    (main.update_request "000000000000000000000021"
       (models.RequestUpdate.Build "accepted") as_alice noon
       notifying_world).1
  = [main.FcmSend "bob-device" "Request Accepted"
       "Your request for Pizza has been accepted"]
  /\ fcm_sends
       (main.update_request "000000000000000000000021"
          (models.RequestUpdate.Build "rejected") as_alice noon
          notifying_world).1
     = [main.FcmSend "bob-device" "Request Rejected"
          "Your request for Pizza has been rejected"].
Proof. split; reflexivity. Qed.

(** ** The specification's distances *)

(** One degree of longitude on the equator is [6371·π/180] km, about
    111 km. *)
Lemma one_degree_on_equator :
  great_circle_km 0 1 0 0 = (6371 * PI / 180)%R.
Proof.
  unfold great_circle_km. cbv zeta.
  replace ((0 - 0) * (PI / 180) / 2)%R with 0%R by lra.
  replace (0 * (PI / 180))%R with 0%R by lra.
  replace ((0 - 1) * (PI / 180) / 2)%R with (- (PI / 360))%R by lra.
  rewrite sin_0, cos_0, sin_neg.
  replace (0 ^ 2 + 1 * 1 * (- sin (PI / 360)) ^ 2)%R
    with (sin (PI / 360) ^ 2)%R by (simpl; lra).
  pose proof PI_RGT_0 as Hpi.
  assert (0 <= sin (PI / 360))%R as Hsin by (apply sin_ge_0; lra).
  rewrite sqrt_pow2 by exact Hsin.
  rewrite asin_sin by lra. lra.
Qed.

(** An item at the origin is at distance 0. *)
Lemma zero_distance (lat lng : R) : great_circle_km lat lng lat lng = 0%R.
Proof.
  unfold great_circle_km. cbv zeta.
  replace ((lat - lat) * (PI / 180) / 2)%R with 0%R by lra.
  replace ((lng - lng) * (PI / 180) / 2)%R with 0%R by lra.
  rewrite sin_0.
  replace (0 ^ 2 + cos (lat * (PI / 180)) * cos (lat * (PI / 180)) * 0 ^ 2)%R
    with 0%R by (simpl; lra).
  rewrite sqrt_0, asin_0. lra.
Qed.

(** Ten degrees north and nine degrees east is more than ten degrees of
    arc away, which is more than 1000 km. *)
Lemma ten_degrees_away : (1000 < great_circle_km 0 1 10 10)%R.
Proof.
  unfold great_circle_km. cbv zeta.
  replace ((10 - 0) * (PI / 180) / 2)%R with (PI / 36)%R by lra.
  replace ((10 - 1) * (PI / 180) / 2)%R with (PI / 40)%R by lra.
  replace (0 * (PI / 180))%R with 0%R by lra.
  replace (10 * (PI / 180))%R with (PI / 18)%R by lra.
  rewrite cos_0.
  pose proof PI_RGT_0 as Hpi. pose proof PI_4 as Hpi4.
  pose proof PI2_3_2 as Hpi3.
  assert (0 < sin (PI / 36))%R as Hsin by (apply sin_gt_0; lra).
  assert (0 < sin (PI / 40))%R as Hsin' by (apply sin_gt_0; lra).
  assert (0 < cos (PI / 18))%R as Hcos by (apply cos_gt_0; lra).
  set (a := (sin (PI / 36) ^ 2 + 1 * cos (PI / 18) * sin (PI / 40) ^ 2)%R).
  assert (0 < cos (PI / 18) * (sin (PI / 40) * sin (PI / 40)))%R as Hpos
    by (repeat apply Rmult_lt_0_compat; assumption).
  assert (sin (PI / 36) ^ 2 < a)%R as Hlow by (unfold a; simpl; lra).
  pose proof (haversine_term_range 0 (PI / 18) (PI / 20)) as [Ha0 Ha1].
  replace ((PI / 18 - 0) / 2)%R with (PI / 36)%R in * by lra.
  replace (PI / 20 / 2)%R with (PI / 40)%R in * by lra.
  rewrite cos_0 in *. fold a in Ha0, Ha1.
  assert (0 <= sqrt a <= 1)%R as [Hr0 Hr1].
  { split; [apply sqrt_pos|].
    rewrite <- sqrt_1. apply sqrt_le_1_alt. exact Ha1. }
  assert (PI / 36 < asin (sqrt a))%R as Harc.
  { destruct (Rlt_le_dec (PI / 36) (asin (sqrt a))) as [Hlt | Hle];
      [exact Hlt | exfalso].
    pose proof (asin_bound (sqrt a)) as [Hb0 Hb1].
    assert (sin (asin (sqrt a)) <= sin (PI / 36))%R as Hs
      by (apply sin_incr_1; lra).
    rewrite sin_asin in Hs by lra.
    assert (sqrt a * sqrt a = a)%R as Hsq by (apply sqrt_sqrt; exact Ha0).
    simpl in Hlow. nra. }
  lra.
Qed.

(** The specification's example, served by GET /food: from the origin
    (0, 1) the pizza, at (0, 0) and about 111 km away, is kept with a
    radius of 200 km and dropped with a radius of 50 km; the bread, at the
    origin, is kept by both and the salad, more than 1000 km away, by
    neither; without a longitude nothing is filtered. *)
Lemma geo_filter_witness :
  let titles lat lng radius_km :=
    (main.get_food_items None None lat lng radius_km None as_alice noon
       sharing_world).2
    ≫= fun served => Ok (map models.FoodItemResponse.title served) in
  titles (Some 0%R) (Some 1%R) (Some 200%R) = Ok ["Pizza"; "Bread"]
  /\ titles (Some 0%R) (Some 1%R) (Some 50%R) = Ok ["Bread"]
  /\ titles (Some 0%R) None (Some 50%R) = Ok ["Pizza"; "Bread"; "Salad"].
Proof.
  pose proof (fun lat lng radius_km =>
                geo_filter_correct None None None lat lng radius_km
                  as_alice noon sharing_world [pizza; bread; salad])
    as W.
  assert (mongo.find_to_list (food_query None None None noon) 1000
            (main.food_items sharing_world)
          = [pizza; bread; salad]) as Hfound by reflexivity.
  destruct (W (Some 0%R) (Some 1%R) (Some 200%R))
    as (Hwide & _ & Hkeep & Hformula).
  destruct (W (Some 0%R) (Some 1%R) (Some 50%R)) as (Hnarrow & _).
  destruct (W (Some 0%R) None (Some 50%R)) as (Hopen & Hskip & _).
  clear W. rewrite Hfound in Hwide, Hnarrow, Hopen.
  assert (Forall (measurable 0%R 1%R) [pizza; bread; salad]) as Hall.
  { repeat constructor;
      solve [ eexists _, _; split; reflexivity
            | eexists; exact (Hformula _ _ _ _) ]. }
  assert (forall r d x y,
             d !! "pickup_lat" = Some (VFloat x) ->
             d !! "pickup_lng" = Some (VFloat y) ->
             in_radius 0%R 1%R r d
             = bool_decide (great_circle_km 0 1 x y <= r)%R) as Hin.
  { intros r d x y Hx Hy. unfold in_radius, distance_to, coordinate.
    rewrite Hx, Hy, Hformula. reflexivity. }
  pose proof one_degree_on_equator as Hpizza.
  pose proof (zero_distance 0 1) as Hbread.
  pose proof ten_degrees_away as Hsalad.
  pose proof PI_4 as Hpi4. pose proof PI2_3_2 as Hpi3.
  assert (main.radius_filter (Some 0%R) (Some 1%R) (Some 200%R)
            [pizza; bread; salad] = Ok [pizza; bread]) as Hwithin.
  { etransitivity; [exact (Hkeep _ _ _ Hall)|].
    cbn [List.filter].
    rewrite (Hin _ pizza 0%R 0%R), (Hin _ bread 0%R 1%R),
      (Hin _ salad 10%R 10%R) by reflexivity.
    rewrite Hbread, Hpizza.
    rewrite !bool_decide_eq_true_2 by lra.
    rewrite bool_decide_eq_false_2 by lra. reflexivity. }
  assert (main.radius_filter (Some 0%R) (Some 1%R) (Some 50%R)
            [pizza; bread; salad] = Ok [bread]) as Hnear.
  { etransitivity; [exact (Hkeep _ _ _ Hall)|].
    cbn [List.filter].
    rewrite (Hin _ pizza 0%R 0%R), (Hin _ bread 0%R 1%R),
      (Hin _ salad 10%R 10%R) by reflexivity.
    rewrite Hbread, Hpizza.
    rewrite bool_decide_eq_false_2 by lra.
    rewrite bool_decide_eq_true_2 by lra.
    rewrite bool_decide_eq_false_2 by lra. reflexivity. }
  assert (main.radius_filter (Some 0%R) None (Some 50%R)
            [pizza; bread; salad] = Ok [pizza; bread; salad]) as Hall3
    by (apply Hskip; right; left; reflexivity).
  cbv zeta. split; [|split].
  - etransitivity; [exact (f_equal _ Hwide)|].
    etransitivity; [exact (f_equal (fun r => (r ≫= _) ≫= _) Hwithin)|].
    reflexivity.
  - etransitivity; [exact (f_equal _ Hnarrow)|].
    etransitivity; [exact (f_equal (fun r => (r ≫= _) ≫= _) Hnear)|].
    reflexivity.
  - etransitivity; [exact (f_equal _ Hopen)|].
    etransitivity; [exact (f_equal (fun r => (r ≫= _) ≫= _) Hall3)|].
    reflexivity.
Defined.

